(** * Shove Trick Trainer API: progression engine and leaderboard

    A shallow embedding of the two handlers of [main.py] that carry logic,
    [log_practice] (POST /api/practice) and [leaderboard]
    (GET /api/leaderboard), together with the schemas of [schemas.py] they
    use.  Python integers are [Z] (they do not overflow), [//] is [Z.div]
    and [%] is [Z.modulo] (both round toward minus infinity, like Python's,
    for the positive divisors of this code).  A [datetime.date] is held by
    its proleptic Gregorian ordinal ([date.toordinal()]), so that two dates
    are equal exactly when their ordinals are. *)

From stdpp Require Import base tactics list gmap sets strings pretty sorting.
From Stdlib Require Import Ascii ZArith Lia.

Local Open Scope Z_scope.
Local Set Warnings "-clear-no-such-hyp".

(** ** Python values used by the handlers *)

Module Py.

(** [str.lower()] on an ASCII text. *)
Definition lower_char (c : ascii) : ascii :=
  let n := N_of_ascii c in
  if ((65 <=? n) && (n <=? 90))%N then ascii_of_N (n + 32) else c.

Fixpoint lower (s : string) : string :=
  match s with
  | EmptyString => EmptyString
  | String c r => String (lower_char c) (lower r)
  end.

(** [s.replace(a, b)] for one-character [a] and [b]. *)
Fixpoint replace (a b : ascii) (s : string) : string :=
  match s with
  | EmptyString => EmptyString
  | String c r => String (if bool_decide (c = a) then b else c) (replace a b r)
  end.

(** [s.split(sep)[0]]: the text before the first [sep], all of [s] when
    [sep] does not occur. *)
Fixpoint split_head (sep : ascii) (s : string) : string :=
  match s with
  | EmptyString => EmptyString
  | String c r => if bool_decide (c = sep) then EmptyString
                  else String c (split_head sep r)
  end.

(** A field read with [dict.get]: [None] for a missing key or a stored
    null.  The timestamp fields are only ever passed to [str], so a
    present value is held by its text (a [str] is its own text). *)
Definition truthy (v : option string) : bool :=
  match v with
  | None => false
  | Some s => negb (bool_decide (s = EmptyString))
  end.

(** [a or b]. *)
Definition or (a b : option string) : option string :=
  if truthy a then a else b.

(** [str(v)]. *)
Definition str (v : option string) : string :=
  match v with
  | None => "None"
  | Some s => s
  end.

(** [l[:n]] for any integer [n]: a negative [n] counts from the end. *)
Definition slice_to {A} (n : Z) (l : list A) : list A :=
  if 0 <=? n then take (Z.to_nat n) l
  else take (length l - Z.to_nat (- n))%nat l.

End Py.

(** ** Outcomes of a computation

    A Python expression returns a value or raises.  The only exception the
    handlers can raise by themselves is the [ValueError] of the [datetime]
    module.  [OutOfFuel] is the answer of a loop of the model whose
    iteration budget is spent; the budgets used below are shown never to
    be. *)

Inductive exn : Type := ValueError.

Inductive outcome (A : Type) : Type :=
| Return (a : A)
| Raise (e : exn)
| OutOfFuel.
Arguments Return {A} a.
Arguments Raise {A} e.
Arguments OutOfFuel {A}.

#[export] Instance outcome_ret : MRet outcome := @Return.
#[export] Instance outcome_bind : MBind outcome := λ A B f m,
  match m with
  | Return a => f a
  | Raise e => Raise e
  | OutOfFuel => OutOfFuel
  end.

(** ** Calendar dates, by ordinal

    The arithmetic of CPython's [datetime] module, used here to print a
    date ([str(date)] is [date.isoformat()]) and to step one day back. *)

Module Date.

Definition DAYS_BEFORE_MONTH : list Z :=
  [-1; 0; 31; 59; 90; 120; 151; 181; 212; 243; 273; 304; 334].
Definition DAYS_IN_MONTH : list Z :=
  [-1; 31; 28; 31; 30; 31; 30; 31; 31; 30; 31; 30; 31].

Definition DI400Y : Z := 146097.
Definition DI100Y : Z := 36524.
Definition DI4Y : Z := 1461.

Definition is_leap (year : Z) : bool :=
  (year mod 4 =? 0) && (negb (year mod 100 =? 0) || (year mod 400 =? 0)).

Definition days_before_year (year : Z) : Z :=
  let y := year - 1 in y * 365 + y / 4 - y / 100 + y / 400.

Definition days_in_month (year month : Z) : Z :=
  if (month =? 2) && is_leap year then 29
  else nth (Z.to_nat month) DAYS_IN_MONTH 0.

Definition days_before_month (year month : Z) : Z :=
  nth (Z.to_nat month) DAYS_BEFORE_MONTH 0
  + (if (2 <? month) && is_leap year then 1 else 0).

Definition ymd2ord (year month day : Z) : Z :=
  days_before_year year + days_before_month year month + day.

Definition ord2ymd (ordinal : Z) : Z * Z * Z :=
  let n := ordinal - 1 in
  let n400 := n / DI400Y in
  let n := n mod DI400Y in
  let year := n400 * 400 + 1 in
  let n100 := n / DI100Y in
  let n := n mod DI100Y in
  let n4 := n / DI4Y in
  let n := n mod DI4Y in
  let n1 := n / 365 in
  let n := n mod 365 in
  let year := year + n100 * 100 + n4 * 4 + n1 in
  if (n1 =? 4) || (n100 =? 4) then (year - 1, 12, 31)
  else
    let leapyear := (n1 =? 3) && (negb (n4 =? 24) || (n100 =? 3)) in
    let month := Z.shiftr (n + 50) 5 in
    let preceding :=
      nth (Z.to_nat month) DAYS_BEFORE_MONTH 0
      + (if (2 <? month) && leapyear then 1 else 0) in
    if n <? preceding then
      let month := month - 1 in
      let preceding :=
        preceding - (nth (Z.to_nat month) DAYS_IN_MONTH 0
                     + (if (month =? 2) && leapyear then 1 else 0)) in
      (year, month, n - preceding + 1)
    else (year, month, n - preceding + 1).

(** ["%0<width>d"] for a non-negative number. *)
Definition zero_pad (width : nat) (n : Z) : string :=
  let s := pretty n in
  String.concat "" (replicate (width - String.length s) "0") +:+ s.

(** [date.isoformat()], which is also [str(date)]. *)
Definition isoformat (ordinal : Z) : string :=
  let '(y, m, d) := ord2ymd ordinal in
  zero_pad 4 y +:+ "-" +:+ zero_pad 2 m +:+ "-" +:+ zero_pad 2 d.

(** [date.fromordinal(n)]: ordinal 1 is 0001-01-01, the earliest date;
    below it Python raises [ValueError].  (The latest date, 9999-12-31,
    cannot be passed by stepping backward from a date.) *)
Definition fromordinal (n : Z) : outcome Z :=
  if 1 <=? n then Return n else Raise ValueError.

Definition digit (c : ascii) : option Z :=
  let n := Z.of_N (N_of_ascii c) in
  if (48 <=? n) && (n <=? 57) then Some (n - 48) else None.

Fixpoint digits (s : string) (acc : Z) : option Z :=
  match s with
  | EmptyString => Some acc
  | String c r =>
      match digit c with
      | Some d => digits r (10 * acc + d)
      | None => None
      end
  end.

(** A reader of the one shape [log_practice] builds when the stored text
    starts with an extended ISO date: [YYYY-MM-DDT00:00:00+00:00].  It
    gives the ordinal of the date, [None] where Python raises
    [ValueError]. *)
Definition fromisoformat_midnight (s : string) : option Z :=
  if bool_decide (String.length s = 25%nat
                  ∧ String.substring 4 1 s = "-" ∧ String.substring 7 1 s = "-"
                  ∧ String.substring 10 15 s = "T00:00:00+00:00") then
    match digits (String.substring 0 4 s) 0, digits (String.substring 5 2 s) 0,
          digits (String.substring 8 2 s) 0 with
    | Some y, Some m, Some d =>
        if (1 <=? y) && (1 <=? m) && (m <=? 12)
           && (1 <=? d) && (d <=? days_in_month y m)
        then Some (ymd2ord y m d) else None
    | _, _, _ => None
    end
  else None.

End Date.


(** ** Schemas ([schemas.py]) *)

Module PracticeSession.
(** [performed_at] is an optional [datetime]; the handlers never read it
    from the request, so it is carried as the text the client sent. *)
Record t : Type := {
  user_id : string;
  duration_min : Z;
  technique_score : Z;
  attempts : Z;
  notes : option string;
  performed_at : option string
}.

(** The [Field] constraints: [ge]/[le] on the three integers and
    [max_length] on [notes]. *)
Definition valid (s : t) : bool :=
  (1 <=? duration_min s) && (duration_min s <=? 240)
  && (0 <=? technique_score s) && (technique_score s <=? 100)
  && (1 <=? attempts s) && (attempts s <=? 500)
  && match notes s with
     | Some n => bool_decide (String.length n ≤ 500)%nat
     | None => true
     end.
End PracticeSession.

Module Achievement.
Record t : Type := {
  user_id : string;
  key : string;
  title : string;
  description : string;
  icon : string;
  unlocked_at : option string
}.
End Achievement.

Module SessionFeedback.
Record t : Type := {
  xp_earned : Z;
  streak : Z;
  badges_unlocked : list string;
  milestone : option string
}.
End SessionFeedback.

(** ** The document store, as the handlers see it

    The [database] module is not part of the sources at hand, so its two
    functions are parameters of the handlers.  A stored document is a
    dictionary; the record below has the keys the handlers read, each
    [None] when the key is missing. *)

Module Doc.
Record t : Type := {
  user_id : option string;
  technique_score : option Z;
  attempts : option Z;
  performed_at : option string;
  created_at : option string
}.
End Doc.

(** The model instance handed to [create_document]. *)
Inductive model : Type :=
| Session (s : PracticeSession.t)
| Unlock (a : Achievement.t).

(** The filter handed to [get_documents]: [{}] or [{"user_id": uid}]. *)
Inductive query : Type :=
| Everything
| ByUser (uid : string).

(** One line of the leaderboard response. *)
Module Rank.
Record t : Type := {
  user_id : option string;
  points : Z;
  rank : Z
}.
End Rank.

(** Modelled from the spec: the Document Store Adapter ([database.py],
    absent from the sources), as section 4.2 describes it: [create]
    inserts one document into the named collection and nothing is ever
    updated or deleted; [query] returns the documents of a collection that
    match the filter.  A session without [performed_at] is stamped with its
    creation time, here the text [now].  It serves as one implementation of
    the store parameters of the handlers. *)
Module MemStore.
Record t : Type := {
  practicesession : list Doc.t;
  achievement : list Achievement.t
}.

Definition empty : t := {| practicesession := []; achievement := [] |}.

Definition document_of (now : string) (s : PracticeSession.t) : Doc.t :=
  {| Doc.user_id := Some (PracticeSession.user_id s);
     Doc.technique_score := Some (PracticeSession.technique_score s);
     Doc.attempts := Some (PracticeSession.attempts s);
     Doc.performed_at := PracticeSession.performed_at s;
     Doc.created_at := Some now |}.

Definition create_document (now : string) (collection : string) (m : model)
    (st : t) : t :=
  match m with
  | Session s =>
      if bool_decide (collection = "practicesession") then
        {| practicesession := practicesession st ++ [document_of now s];
           achievement := achievement st |}
      else st
  | Unlock a =>
      if bool_decide (collection = "achievement") then
        {| practicesession := practicesession st;
           achievement := achievement st ++ [a] |}
      else st
  end.

Definition get_documents (collection : string) (q : query) (st : t)
    : list Doc.t :=
  if bool_decide (collection = "practicesession") then
    match q with
    | Everything => practicesession st
    | ByUser uid =>
        filter (λ d, Doc.user_id d = Some uid) (practicesession st)
    end
  else [].
End MemStore.

(** ** Pure pieces of the handlers *)

(** [str(d.get("performed_at") or d.get("created_at")).split("T")[0]] *)
Definition stamp_date (d : Doc.t) : string :=
  Py.split_head "T" (Py.str (Py.or (Doc.performed_at d) (Doc.created_at d))).

Definition string_le (a b : string) : Prop := String.leb a b = true.

#[export] Instance string_le_dec a b : Decision (string_le a b).
Proof. unfold string_le. apply _. Defined.

(** [sorted({stamp_date(d) for d in docs})]: the distinct texts, in
    increasing order. *)
Definition sorted_dates (docs : list Doc.t) : list string :=
  merge_sort string_le (elements (list_to_set (stamp_date <$> docs) : gset string)).

(** The loop
    [while day in date_set: count += 1; day = day.fromordinal(day.toordinal() - 1)],
    with at most [fuel] evaluations of its test. *)
Fixpoint while_day_in (fuel : nat) (date_set : gset Z) (day count : Z)
    : outcome Z :=
  match fuel with
  | O => OutOfFuel
  | S fuel =>
      if bool_decide (day ∈ date_set) then
        day' ← Date.fromordinal (day - 1);
        while_day_in fuel date_set day' (count + 1)
      else Return count
  end.

(** The two badge tests, in the order of the source. *)
Definition badges_for (session : PracticeSession.t) : list string :=
  (if 60 <=? PracticeSession.technique_score session then ["Clean Pop"] else [])
  ++ (if 50 <=? PracticeSession.attempts session then ["Grinder"] else []).

(** [if streak and streak % 7 == 0: milestone = f"{streak}-Day Streak!"] *)
Definition milestone_for (streak : Z) : option string :=
  if negb (streak =? 0) && (streak mod 7 =? 0)
  then Some (pretty streak +:+ "-Day Streak!")
  else None.

(** The [score] dictionary of [leaderboard]: a Python [dict] keeps its keys
    in the order of their first insertion, and [sorted] is stable, so the
    order of the keys is part of the result. *)
Fixpoint dict_get (k : option string) (default : Z)
    (d : list (option string * Z)) : Z :=
  match d with
  | [] => default
  | (k', v) :: r => if bool_decide (k' = k) then v else dict_get k default r
  end.

Fixpoint dict_set (k : option string) (v : Z)
    (d : list (option string * Z)) : list (option string * Z) :=
  match d with
  | [] => [(k, v)]
  | (k', v') :: r =>
      if bool_decide (k' = k) then (k, v) :: r else (k', v') :: dict_set k v r
  end.

(** One iteration of [for s in sessions]. *)
Definition add_session (score : list (option string * Z)) (s : Doc.t)
    : list (option string * Z) :=
  let uid := Doc.user_id s in
  dict_set uid
    (dict_get uid 0 score
     + default 0 (Doc.technique_score s)
     + default 0 (Doc.attempts s) / 10)
    score.

Definition score_of (sessions : list Doc.t) : list (option string * Z) :=
  fold_left add_session sessions [].

(** [sorted(..., key=lambda x: x[1], reverse=True)]: decreasing points,
    equal points in their original order. *)
Fixpoint insert_desc (x : option string * Z) (l : list (option string * Z))
    : list (option string * Z) :=
  match l with
  | [] => [x]
  | y :: r => if x.2 <? y.2 then y :: insert_desc x r else x :: y :: r
  end.

Definition sorted_desc (l : list (option string * Z))
    : list (option string * Z) :=
  foldr insert_desc [] l.

(** [[{"user_id": uid, "points": pts, "rank": i + 1} for i, (uid, pts) in enumerate(ranks)]] *)
Definition ranked (ranks : list (option string * Z)) : list Rank.t :=
  imap (λ i r, {| Rank.user_id := r.1; Rank.points := r.2;
                  Rank.rank := Z.of_nat i + 1 |}) ranks.

Definition leaderboard_of (limit : Z) (sessions : list Doc.t) : list Rank.t :=
  ranked (Py.slice_to limit (sorted_desc (score_of sessions))).

(** *** Notions used to state the properties of the leaderboard *)

(** What one session is worth: [technique_score + attempts // 10]. *)
Definition points_of (s : Doc.t) : Z :=
  default 0 (Doc.technique_score s) + default 0 (Doc.attempts s) / 10.

(** The sum of [points_of] over the sessions of [uid]. *)
Definition user_points (sessions : list Doc.t) (uid : option string) : Z :=
  foldr Z.add 0 (points_of <$> filter (λ s, Doc.user_id s = uid) sessions).

(** The order of the leaderboard: [x] may stand before [y]. *)
Definition by_points_desc (x y : option string * Z) : Prop := y.2 ≤ x.2.

(** What a handler acts on: the store, and the wall clock as the UTC
    dates its successive readings will show. *)
Record world (db : Type) : Type := {
  store : db;
  clock : nat → Z
}.
Arguments store {db} w.
Arguments clock {db} w n.

(** [x] stands before [y] in [l]. *)
Definition precedes {A} (x y : A) (l : list A) : Prop :=
  ∃ i j : nat, (i < j)%nat ∧ l !! i = Some x ∧ l !! j = Some y.

(** ** The attempts feed

    A document of the attempt collection is a dictionary.  What it holds
    under a key is a text or some other object (an identifier of the
    store, a number, a timestamp); of the latter [list_attempts] uses only
    [str]. *)

Inductive value (object : Type) : Type :=
| Text (s : string)
| Object (o : object).
Arguments Text {object} s.
Arguments Object {object} o.

(** [str(d.get(key))]: [dict.get] gives [None] for a missing key. *)
Definition str_get {object} (str_object : object → string)
    (d : gmap string (value object)) (key : string) : string :=
  match d !! key with
  | None => "None"
  | Some (Text s) => s
  | Some (Object o) => str_object o
  end.

(** The body of [for d in docs]: the key [id] is set to
    [str(d.get("_id"))], then the key [_id] is popped. *)
Definition expose_id {object} (str_object : object → string)
    (d : gmap string (value object)) : gmap string (value object) :=
  delete "_id" (<["id" := Text (str_get str_object d "_id")]> d).

(** GET /api/attempts.  [get_documents_limit] is
    [get_documents(collection, q, limit=limit)] on a collection whose
    documents are handled as dictionaries, [str_object] is [str] on the
    objects they hold.  The handler reads the store and leaves it as it
    is. *)
Definition list_attempts {db object : Type} (str_object : object → string)
    (get_documents_limit :
       string → query → Z → db → list (gmap string (value object)))
    (limit : Z) (w : world db)
    : outcome (list (gmap string (value object))) * world db :=
  let docs := get_documents_limit "attempt" Everything limit (store w) in
  (Return (expose_id str_object <$> docs), w).

(** ** The diagnostic of GET /test

    The [db] object of the [database] module, when there is one:
    [name] is [None] when [hasattr(db, 'name')] is false, and
    [list_collection_names] is the list it returns or the text of the
    exception it raises.  The text of an exception is taken to be ASCII, so
    that its first 50 characters are its first 50 bytes. *)

Module Handle.
Record t : Type := {
  name : option string;
  list_collection_names : string + list string
}.
End Handle.

Module Health.
Record t : Type := {
  backend : string;
  database : string;
  database_url : option string;
  database_name : option string;
  connection_status : string;
  collections : list string
}.

Definition set_database (v : string) (r : t) : t :=
  {| backend := backend r; database := v; database_url := database_url r;
     database_name := database_name r;
     connection_status := connection_status r; collections := collections r |}.
Definition set_database_url (v : option string) (r : t) : t :=
  {| backend := backend r; database := database r; database_url := v;
     database_name := database_name r;
     connection_status := connection_status r; collections := collections r |}.
Definition set_database_name (v : option string) (r : t) : t :=
  {| backend := backend r; database := database r;
     database_url := database_url r; database_name := v;
     connection_status := connection_status r; collections := collections r |}.
Definition set_connection_status (v : string) (r : t) : t :=
  {| backend := backend r; database := database r;
     database_url := database_url r; database_name := database_name r;
     connection_status := v; collections := collections r |}.
Definition set_collections (v : list string) (r : t) : t :=
  {| backend := backend r; database := database r;
     database_url := database_url r; database_name := database_name r;
     connection_status := connection_status r; collections := v |}.
End Health.

(** GET /test.  [getenv] is [os.getenv].  Nothing in the outer [try] can
    raise once [list_collection_names] has its own handler, so the outer
    [except] has no case here. *)
Definition test_database (db : option Handle.t)
    (getenv : string → option string) : Health.t :=
  let response :=
    {| Health.backend := "✅ Running";
       Health.database := "❌ Not Available";
       Health.database_url := None;
       Health.database_name := None;
       Health.connection_status := "Not Connected";
       Health.collections := [] |} in
  let response :=
    match db with
    | Some db =>
        let response := Health.set_database "✅ Available" response in
        let response :=
          Health.set_database_url (Some "✅ Configured") response in
        let response :=
          Health.set_database_name
            (Some (match Handle.name db with
                   | Some name => name
                   | None => "✅ Connected"
                   end)) response in
        let response := Health.set_connection_status "Connected" response in
        match Handle.list_collection_names db with
        | inr collections =>
            let response :=
              Health.set_collections (take 10 collections) response in
            Health.set_database "✅ Connected & Working" response
        | inl e =>
            Health.set_database
              ("⚠️  Connected but Error: " +:+ String.substring 0 50 e)
              response
        end
    | None =>
        Health.set_database "⚠️  Available but not initialized" response
    end in
  let response :=
    Health.set_database_url
      (Some (if Py.truthy (getenv "DATABASE_URL")
             then "✅ Set" else "❌ Not Set")) response in
  let response :=
    Health.set_database_name
      (Some (if Py.truthy (getenv "DATABASE_NAME")
             then "✅ Set" else "❌ Not Set")) response in
  response.


(** ** Sample data *)

Module Sample.
(** The request of the worked example of the specification. *)
Definition session : PracticeSession.t :=
  {| PracticeSession.user_id := "a";
     PracticeSession.duration_min := 25;
     PracticeSession.technique_score := 70;
     PracticeSession.attempts := 60;
     PracticeSession.notes := None;
     PracticeSession.performed_at := None |}.

(** A short, sloppy session: no badge. *)
Definition short_session : PracticeSession.t :=
  {| PracticeSession.user_id := "a";
     PracticeSession.duration_min := 5;
     PracticeSession.technique_score := 30;
     PracticeSession.attempts := 10;
     PracticeSession.notes := None;
     PracticeSession.performed_at := None |}.

(** The same session, twenty minutes longer. *)
Definition longer_session : PracticeSession.t :=
  {| PracticeSession.user_id := "a";
     PracticeSession.duration_min := 45;
     PracticeSession.technique_score := 70;
     PracticeSession.attempts := 60;
     PracticeSession.notes := None;
     PracticeSession.performed_at := None |}.

(** A session reported nine days after it took place. *)
Definition late_session : PracticeSession.t :=
  {| PracticeSession.user_id := "a";
     PracticeSession.duration_min := 25;
     PracticeSession.technique_score := 70;
     PracticeSession.attempts := 60;
     PracticeSession.notes := None;
     PracticeSession.performed_at := Some "2024-03-01T17:45:00+00:00" |}.

(** A session dated the second day of the calendar. *)
Definition ancient_session : PracticeSession.t :=
  {| PracticeSession.user_id := "a";
     PracticeSession.duration_min := 25;
     PracticeSession.technique_score := 70;
     PracticeSession.attempts := 60;
     PracticeSession.notes := None;
     PracticeSession.performed_at := Some "0001-01-02T08:00:00+00:00" |}.

(** 2024-03-10 *)
Definition today : Z := 738955.

(** A clock that stays on [today]. *)
Definition steady : nat → Z := λ _, today.

(** An empty store on [today]; sessions are stamped with [now]. *)
Definition now : string := "2024-03-10T09:00:00.000000+00:00".
Definition fresh : world MemStore.t :=
  {| store := MemStore.empty; clock := steady |}.

Definition stored (user stamp : string) : Doc.t :=
  {| Doc.user_id := Some user;
     Doc.technique_score := Some 40;
     Doc.attempts := Some 12;
     Doc.performed_at := Some stamp;
     Doc.created_at := Some stamp |}.

(** User ["a"] practised yesterday and the day before. *)
Definition two_days : world MemStore.t :=
  {| store :=
       {| MemStore.practicesession :=
            [stored "a" "2024-03-08T18:00:00+00:00";
             stored "a" "2024-03-09T07:30:00+00:00"];
          MemStore.achievement := [] |};
     clock := steady |}.

(** User ["a"] practised two days ago only. *)
Definition gap : world MemStore.t :=
  {| store :=
       {| MemStore.practicesession :=
            [stored "a" "2024-03-08T18:00:00+00:00"];
          MemStore.achievement := [] |};
     clock := steady |}.

(** User ["a"] practised on each of the last six days. *)
Definition six_days : world MemStore.t :=
  {| store :=
       {| MemStore.practicesession :=
            [stored "a" "2024-03-04T10:00:00+00:00";
             stored "a" "2024-03-05T10:00:00+00:00";
             stored "a" "2024-03-06T10:00:00+00:00";
             stored "a" "2024-03-07T10:00:00+00:00";
             stored "a" "2024-03-08T10:00:00+00:00";
             stored "a" "2024-03-09T10:00:00+00:00"];
          MemStore.achievement := [] |};
     clock := steady |}.

(** Another user's session in the store, and a clock that moves on one
    day at each reading. *)
Definition busy : world MemStore.t :=
  {| store :=
       {| MemStore.practicesession :=
            [stored "b" "2024-03-09T07:30:00+00:00"];
          MemStore.achievement := [] |};
     clock := λ n, today + Z.of_nat n |}.

(** The store of the leaderboard example. *)
Definition league (sessions : list Doc.t) : world MemStore.t :=
  {| store := {| MemStore.practicesession := sessions;
                 MemStore.achievement := [] |};
     clock := steady |}.

(** The second day of the calendar, with a session on the first. *)
Definition year_one : world MemStore.t :=
  {| store :=
       {| MemStore.practicesession :=
            [stored "a" "0001-01-01T12:00:00+00:00"];
          MemStore.achievement := [] |};
     clock := λ _, 2 |}.

(** A store whose reads do not see the session just written: it keeps
    nothing and finds nothing. *)
Definition blind_create (collection : string) (m : model) (st : unit)
    : unit := st.
Definition blind_get (collection : string) (q : query) (st : unit)
    : list Doc.t := [].
Definition blind : world unit := {| store := (); clock := steady |}.

(** The two sessions of the leaderboard example. *)
Definition board : list Doc.t :=
  [ {| Doc.user_id := Some "u1"; Doc.technique_score := Some 80;
       Doc.attempts := Some 20; Doc.performed_at := None;
       Doc.created_at := Some now |};
    {| Doc.user_id := Some "u2"; Doc.technique_score := Some 50;
       Doc.attempts := Some 100; Doc.performed_at := None;
       Doc.created_at := Some now |} ].
(** User ["a"] has a session whose timestamp is kept the way
    [str(datetime)] prints it, with a space. *)
Definition spaced : world MemStore.t :=
  {| store :=
       {| MemStore.practicesession := [stored "a" "2024-03-09 07:30:00"];
          MemStore.achievement := [] |};
     clock := steady |}.

(** User ["a"] has a session with no timestamp at all. *)
Definition undated_doc : Doc.t :=
  {| Doc.user_id := Some "a";
     Doc.technique_score := Some 40;
     Doc.attempts := Some 12;
     Doc.performed_at := None;
     Doc.created_at := None |}.
Definition undated : world MemStore.t :=
  {| store :=
       {| MemStore.practicesession := [undated_doc];
          MemStore.achievement := [] |};
     clock := steady |}.

(** Two users level on points, ["x"] first. *)
Definition tied : list Doc.t :=
  [stored "x" "2024-03-09T07:30:00+00:00";
   stored "y" "2024-03-09T08:30:00+00:00";
   stored "x" "2024-03-10T07:30:00+00:00";
   stored "y" "2024-03-10T08:30:00+00:00"].

(** Two attempt documents, the second without [_id] and with an [id] of its
    own; identifiers are held by their text. *)
Definition attempts : list (gmap string (value string)) :=
  [ list_to_map [("_id", Object "65f0c1a2"); ("user_id", Text "a");
                 ("media_url", Text "https://example.org/a.mp4")];
    list_to_map [("id", Object "mine"); ("user_id", Text "b")] ].
Definition attempt_store : world (list (gmap string (value string))) :=
  {| store := attempts; clock := steady |}.
Definition get_attempts (collection : string) (q : query) (limit : Z)
    (st : list (gmap string (value string)))
    : list (gmap string (value string)) :=
  Py.slice_to limit st.

(** A store with twelve collections, and one that cannot list them. *)
Definition handle : Handle.t :=
  {| Handle.name := Some "shove";
     Handle.list_collection_names :=
       inr ["appuser"; "practicesession"; "attempt"; "achievement";
            "c5"; "c6"; "c7"; "c8"; "c9"; "c10"; "c11"; "c12"] |}.
Definition broken_handle : Handle.t :=
  {| Handle.name := None;
     Handle.list_collection_names := inl "timed out" |}.
Definition env (key : string) : option string :=
  if bool_decide (key = "DATABASE_URL") then Some "mongodb://localhost"
  else if bool_decide (key = "DATABASE_NAME") then Some ""
  else None.

End Sample.

(** ** The handlers *)

Section Handlers.

(** The store ([database.create_document], [database.get_documents]; the
    identifier [create_document] returns is dropped by [log_practice])
    and [datetime.fromisoformat] followed by [.date()], which gives the
    ordinal of the date read or [None] for [ValueError].  Which texts the
    latter accepts depends on the Python version, so it is left open.  The
    store is taken to answer: its own failures are not part of the
    model. *)
Context {db : Type}.
Variable create_document : string → model → db → db.
Variable get_documents : string → query → db → list Doc.t.
Variable fromisoformat : string → option Z.

Definition M (A : Type) : Type := world db → outcome A * world db.

#[local] Instance M_ret : MRet M := λ A a w, (Return a, w).
#[local] Instance M_bind : MBind M := λ A B f m w,
  match m w with
  | (Return a, w') => f a w'
  | (Raise e, w') => (Raise e, w')
  | (OutOfFuel, w') => (OutOfFuel, w')
  end.

Definition lift {A} (o : outcome A) : M A := λ w, (o, w).

(** [create_document(collection, m)] *)
Definition create (collection : string) (m : model) : M unit := λ w,
  (Return (), {| store := create_document collection m (store w);
                 clock := clock w |}).

(** [get_documents(collection, q)] *)
Definition find (collection : string) (q : query) : M (list Doc.t) := λ w,
  (Return (get_documents collection q (store w)), w).

(** [datetime.now(timezone.utc).date()] *)
Definition utc_today : M Z := λ w,
  (Return (clock w 0%nat),
   {| store := store w; clock := λ n, clock w (S n) |}).

(** [for x in l: body(x)] *)
Fixpoint for_each {A} (l : list A) (body : A → M unit) : M unit :=
  match l with
  | [] => mret ()
  | x :: r => body x;; for_each r body
  end.

(** [{datetime.fromisoformat(dt + "T00:00:00+00:00").date() for dt in dates if dt}] *)
Fixpoint date_set_of (dates : list string) : outcome (gset Z) :=
  match dates with
  | [] => Return ∅
  | dt :: rest =>
      if bool_decide (dt = EmptyString) then date_set_of rest
      else
        match fromisoformat (dt +:+ "T00:00:00+00:00") with
        | None => Raise ValueError
        | Some day => days ← date_set_of rest; Return ({[day]} ∪ days)
        end
  end.

(** The body of [if dates:] after the clock is read: the set of dates,
    then the walk back from [today] with [count] starting at 0.  The walk
    tests its condition at most [today] times before [fromordinal] raises,
    hence the budget. *)
Definition count_back (dates : list string) (today : Z) : outcome Z :=
  date_set ← date_set_of dates;
  while_day_in (S (Z.to_nat today)) date_set today 0.

(** The achievement written for badge [b] on the day [today]. *)
Definition achievement_for (session : PracticeSession.t) (b : string)
    (today : Z) : Achievement.t :=
  {| Achievement.user_id := PracticeSession.user_id session;
     Achievement.key := Py.replace " " "-" (Py.lower b);
     Achievement.title := b;
     Achievement.description :=
       "Unlocked by session on " +:+ Date.isoformat today;
     Achievement.icon := "⭐";
     Achievement.unlocked_at := None |}.

(** POST /api/practice *)
Definition log_practice (session : PracticeSession.t)
    : M SessionFeedback.t :=
  create "practicesession" (Session session);;
  let xp :=
    Z.min 50 (PracticeSession.duration_min session / 5
              + PracticeSession.attempts session / 10
              + PracticeSession.technique_score session / 10) in
  docs ← find "practicesession" (ByUser (PracticeSession.user_id session));
  let dates := sorted_dates docs in
  let streak := match dates with [] => 0 | _ :: _ => 1 end in
  streak ← match dates with
           | [] => mret streak
           | _ :: _ =>
               today ← utc_today;
               count ← lift (count_back dates today);
               mret count
           end;
  let badges := badges_for session in
  let milestone := milestone_for streak in
  for_each badges (λ b,
    today ← utc_today;
    create "achievement" (Unlock (achievement_for session b today)));;
  mret {| SessionFeedback.xp_earned := xp;
          SessionFeedback.streak := streak;
          SessionFeedback.badges_unlocked := badges;
          SessionFeedback.milestone := milestone |}.

(** GET /api/leaderboard *)
Definition leaderboard (limit : Z) : M (list Rank.t) :=
  sessions ← find "practicesession" Everything;
  mret (leaderboard_of limit sessions).

(** The world a failed call of [log_practice] leaves: the session is
    stored, the clock was read once, no achievement is written. *)
Definition failed_world (session : PracticeSession.t) (w : world db)
    : world db :=
  {| store := create_document "practicesession" (Session session) (store w);
     clock := λ i, clock w (S i) |}.


(** *** Notions used to state the properties *)

(** The documents [log_practice] reads back: those of the user, after the
    new session is stored. *)
Definition history (session : PracticeSession.t) (w : world db) : list Doc.t :=
  get_documents "practicesession"
    (ByUser (PracticeSession.user_id session))
    (create_document "practicesession" (Session session) (store w)).

(** How many times the clock is read before the first achievement is
    written. *)
Definition reads_before_unlocks (session : PracticeSession.t) (w : world db)
    : nat :=
  match sorted_dates (history session w) with [] => 0 | _ :: _ => 1 end.

(** The achievements written for [badges] when the clock is at its
    reading number [r]. *)
Fixpoint unlocks (session : PracticeSession.t) (badges : list string)
    (clk : nat → Z) (r : nat) : list Achievement.t :=
  match badges with
  | [] => []
  | b :: rest =>
      achievement_for session b (clk r) :: unlocks session rest clk (S r)
  end.

(** Writing a list of achievements, one [create_document] each. *)
Definition write_all (achs : list Achievement.t) (st : db) : db :=
  fold_left (λ st a, create_document "achievement" (Unlock a) st) achs st.

(** The feedback [log_practice] builds once [streak] is known. *)
Definition feedback_for (session : PracticeSession.t) (streak : Z)
    : SessionFeedback.t :=
  {| SessionFeedback.xp_earned :=
       Z.min 50 (PracticeSession.duration_min session / 5
                 + PracticeSession.attempts session / 10
                 + PracticeSession.technique_score session / 10);
     SessionFeedback.streak := streak;
     SessionFeedback.badges_unlocked := badges_for session;
     SessionFeedback.milestone := milestone_for streak |}.

(** The world in which the feedback is returned, [n] clock readings
    having gone before the badge loop. *)
Definition final_world (session : PracticeSession.t) (w : world db)
    (n : nat) : world db :=
  {| store :=
       write_all (unlocks session (badges_for session) (clock w) n)
         (create_document "practicesession" (Session session) (store w));
     clock := λ i, clock w (n + (length (badges_for session) + i))%nat |}.

(** *** How [log_practice] runs *)

Lemma unlocks_shift session badges (clk : nat → Z) (k r : nat) :
  unlocks session badges (λ n, clk (k + n)%nat) r
  = unlocks session badges clk (k + r)%nat.
Proof.
  revert r. induction badges as [|b rest IH]; intros r; [reflexivity|].
  cbn [unlocks]. rewrite IH. do 3 f_equal. lia.
Qed.

Lemma unlocks_next session badges (clk : nat → Z) (r : nat) :
  unlocks session badges (λ n, clk (S n)) r
  = unlocks session badges clk (S r).
Proof. exact (unlocks_shift session badges clk 1 r). Qed.

Lemma for_each_unlocks session badges (w : world db) :
  for_each badges (λ b,
    today ← utc_today;
    create "achievement" (Unlock (achievement_for session b today))) w
  = (Return (),
     {| store := write_all (unlocks session badges (clock w) 0) (store w);
        clock := λ i, clock w (length badges + i)%nat |}).
Proof.
  revert w. induction badges as [|b rest IH]; intros w.
  - destruct w; reflexivity.
  - cbn [for_each]. unfold mbind at 1, M_bind at 1.
    unfold mbind at 1, M_bind at 1, utc_today at 1, create at 1.
    cbn [store clock]. rewrite IH. cbn [store clock length unlocks].
    unfold write_all. cbn [fold_left].
    rewrite unlocks_next. reflexivity.
Qed.

Lemma log_practice_run session (w : world db) :
  log_practice session w =
  match sorted_dates (history session w) with
  | [] => (Return (feedback_for session 0), final_world session w 0)
  | dates =>
      match count_back dates (clock w 0%nat) with
      | Return k => (Return (feedback_for session k), final_world session w 1)
      | Raise e =>
          (Raise e,
           {| store := create_document "practicesession" (Session session)
                         (store w);
              clock := λ i, clock w (S i) |})
      | OutOfFuel =>
          (OutOfFuel,
           {| store := create_document "practicesession" (Session session)
                         (store w);
              clock := λ i, clock w (S i) |})
      end
  end.
Proof.
  unfold log_practice, history.
  unfold mbind at 1, M_bind at 1, create at 1.
  unfold mbind at 1, M_bind at 1, find at 1. cbn [store clock].
  destruct (sorted_dates _) as [|d ds] eqn:Hd.
  - unfold mbind at 1, M_bind at 1, mret at 1, M_ret at 1.
    unfold mbind at 1, M_bind at 1. rewrite for_each_unlocks.
    reflexivity.
  - unfold mbind at 1, M_bind at 1.
    unfold mbind at 1, M_bind at 1, utc_today at 1. cbn [store clock].
    unfold mbind at 1, M_bind at 1, lift at 1.
    destruct (count_back _ _) as [k| |]; try reflexivity.
    unfold mret at 1, M_ret at 1.
    unfold mbind at 1, M_bind at 1. rewrite for_each_unlocks.
    cbn [store clock]. unfold final_world.
    rewrite unlocks_next.
    reflexivity.
Qed.

(** *** The walk back from today *)

Lemma while_day_in_count fuel (S : gset Z) day count k :
  0 ≤ k → k < Z.of_nat fuel →
  (∀ i, 0 ≤ i < k → day - i ∈ S) → day - k ∉ S →
  k = 0 ∨ 1 ≤ day - k →
  while_day_in fuel S day count = Return (count + k).
Proof.
  revert day count k.
  induction fuel as [|fuel IH]; intros day count k Hk Hfuel Hin Hout Hcal;
    [lia|].
  cbn [while_day_in]. case_bool_decide as Hday.
  - assert (k ≠ 0) by (intros ->; apply Hout; by rewrite Z.sub_0_r).
    unfold Date.fromordinal.
    destruct (Z.leb_spec 1 (day - 1)); [|lia].
    unfold mbind, outcome_bind.
    rewrite (IH (day - 1) (count + 1) (k - 1)); [f_equal; lia|lia|lia| | |lia].
    + intros i Hi. replace (day - 1 - i) with (day - (i + 1)) by lia.
      apply Hin. lia.
    + by replace (day - 1 - (k - 1)) with (day - k) by lia.
  - destruct (decide (k = 0)) as [->|]; [f_equal; lia|].
    exfalso. apply Hday. rewrite <- (Z.sub_0_r day). apply Hin. lia.
Qed.

Lemma while_day_in_ge fuel (S : gset Z) day count r :
  while_day_in fuel S day count = Return r → count ≤ r.
Proof.
  revert day count. induction fuel as [|fuel IH]; intros day count; [done|].
  cbn [while_day_in]. case_bool_decide.
  - unfold Date.fromordinal. destruct (1 <=? day - 1); [|done].
    unfold mbind, outcome_bind. intros Hr%IH. lia.
  - intros [= ->]. lia.
Qed.

Lemma while_day_in_fuel fuel (S : gset Z) day count :
  (Z.to_nat day < fuel)%nat → while_day_in fuel S day count ≠ OutOfFuel.
Proof.
  revert day count. induction fuel as [|fuel IH]; intros day count Hf; [lia|].
  cbn [while_day_in]. case_bool_decide; [|done].
  unfold Date.fromordinal. destruct (Z.leb_spec 1 (day - 1)); [|done].
  unfold mbind, outcome_bind. apply IH. lia.
Qed.

(** The walk leaves the calendar, and Python raises, exactly when every
    day from 0001-01-01 to today is in the set. *)
Lemma while_day_in_raises fuel (S : gset Z) day count :
  1 ≤ day → day < Z.of_nat fuel →
  (∀ d, 1 ≤ d ≤ day → d ∈ S) →
  while_day_in fuel S day count = Raise ValueError.
Proof.
  revert day count. induction fuel as [|fuel IH]; intros day count H1 Hf Hall;
    [lia|].
  cbn [while_day_in]. rewrite bool_decide_eq_true_2 by (apply Hall; lia).
  unfold Date.fromordinal. destruct (Z.leb_spec 1 (day - 1)); [|done].
  unfold mbind, outcome_bind. apply IH; [lia|lia|].
  intros d Hd. apply Hall. lia.
Qed.

Lemma date_set_of_elem dates (S : gset Z) x :
  date_set_of dates = Return S →
  x ∈ S ↔ ∃ dt, dt ∈ dates ∧ dt ≠ EmptyString
                ∧ fromisoformat (dt +:+ "T00:00:00+00:00") = Some x.
Proof.
  revert S. induction dates as [|dt rest IH]; intros S; cbn [date_set_of].
  - intros [= <-]. split; [set_solver|]. intros (? & ?%elem_of_nil & _). done.
  - case_bool_decide as Hdt.
    + intros HS. rewrite (IH S HS). split.
      * intros (d & ? & ? & ?). exists d. split; [by right|done].
      * intros (d & [->|?]%elem_of_cons & Hne & ?); [done|].
        exists d. done.
    + destruct (fromisoformat _) as [day|] eqn:Hday; [|done].
      destruct (date_set_of rest) as [S'| |] eqn:HS'; try done.
      unfold mbind, outcome_bind. intros [= <-].
      rewrite elem_of_union, elem_of_singleton, (IH S' eq_refl). split.
      * intros [->|(d & ? & ? & ?)].
        -- exists dt. split; [by left|done].
        -- exists d. split; [by right|done].
      * intros (d & [->|?]%elem_of_cons & Hne & Hx).
        -- left. congruence.
        -- right. exists d. done.
Qed.

Lemma date_set_of_in_budget dates : date_set_of dates ≠ OutOfFuel.
Proof.
  induction dates as [|dt rest IH]; cbn [date_set_of]; [done|].
  case_bool_decide; [done|].
  destruct (fromisoformat _); [|done].
  destruct (date_set_of rest); done.
Qed.

Lemma sorted_dates_elem docs dt :
  dt ∈ sorted_dates docs ↔ ∃ d, d ∈ docs ∧ stamp_date d = dt.
Proof.
  unfold sorted_dates. rewrite merge_sort_Permutation.
  rewrite elem_of_elements, elem_of_list_to_set, list_elem_of_fmap.
  naive_solver.
Qed.

Lemma sorted_dates_NoDup docs : NoDup (sorted_dates docs).
Proof.
  unfold sorted_dates. rewrite merge_sort_Permutation. apply NoDup_elements.
Qed.

Lemma log_practice_in_budget session (w : world db) :
  (log_practice session w).1 ≠ OutOfFuel.
Proof.
  rewrite log_practice_run.
  destruct (sorted_dates _) as [|d ds]; [done|].
  destruct (count_back _ _) as [k|e|] eqn:Hc; [done|done|].
  exfalso. revert Hc. unfold count_back.
  destruct (date_set_of _) as [S| |] eqn:HS; [|done|].
  - unfold mbind, outcome_bind. apply while_day_in_fuel. lia.
  - by apply date_set_of_in_budget in HS.
Qed.

Lemma count_back_nonneg dates today k :
  count_back dates today = Return k → 0 ≤ k.
Proof.
  unfold count_back. destruct (date_set_of dates) as [S| |]; [|done|done].
  unfold mbind, outcome_bind. apply while_day_in_ge.
Qed.

(** Whenever [log_practice] returns, its feedback is [feedback_for] at a
    streak that is not negative, and the world is [final_world]. *)
Lemma log_practice_returns session (w : world db) fb w' :
  log_practice session w = (Return fb, w') →
  ∃ k, 0 ≤ k ∧ fb = feedback_for session k
       ∧ w' = final_world session w (reads_before_unlocks session w).
Proof.
  rewrite log_practice_run. unfold reads_before_unlocks.
  destruct (sorted_dates _) as [|d ds].
  - intros [= <- <-]. by exists 0.
  - destruct (count_back _ _) as [k| |] eqn:Hk; [|done|done].
    intros [= <- <-]. exists k. by apply count_back_nonneg in Hk.
Qed.

(** With the dates of the history read as the set [S], and [k] days in a
    row present back from today, the first absent one being on the
    calendar, [log_practice] returns the streak [k]. *)
Lemma log_practice_streak session (w : world db) (S : gset Z) k :
  date_set_of (sorted_dates (history session w)) = Return S →
  0 ≤ k →
  (∀ i, 0 ≤ i < k → clock w 0%nat - i ∈ S) →
  clock w 0%nat - k ∉ S →
  k = 0 ∨ 1 ≤ clock w 0%nat - k →
  log_practice session w
  = (Return (feedback_for session k),
     final_world session w (reads_before_unlocks session w)).
Proof.
  intros HS Hk Hin Hout Hcal.
  rewrite log_practice_run. unfold reads_before_unlocks.
  destruct (sorted_dates _) as [|d ds] eqn:Hd.
  - injection HS as <-.
    destruct (decide (k = 0)) as [->|]; [done|].
    exfalso. apply (not_elem_of_empty (C:=gset Z) (clock w 0%nat - 0)).
    apply Hin. lia.
  - unfold count_back. rewrite HS. unfold mbind, outcome_bind.
    rewrite (while_day_in_count _ S _ 0 k); [done|lia| |done|done|done].
    destruct Hcal; lia.
Qed.

(** *** Properties of [log_practice] *)

(** C1. Whenever the practice-log operation returns, for a validated
    session or any other, [xp_earned] is
    [min(50, duration_min // 5 + attempts // 10 + technique_score // 10)],
    each quotient being the floor of the division; a session of 25
    minutes, score 70 and 60 attempts earns 18. *)
Theorem xp_earned_formula session (w : world db) fb w' :
  log_practice session w = (Return fb, w') →
  let d := PracticeSession.duration_min session in
  let a := PracticeSession.attempts session in
  let t := PracticeSession.technique_score session in
  SessionFeedback.xp_earned fb = Z.min 50 (d / 5 + a / 10 + t / 10)
  ∧ 5 * (d / 5) ≤ d < 5 * (d / 5) + 5
  ∧ 10 * (a / 10) ≤ a < 10 * (a / 10) + 10
  ∧ 10 * (t / 10) ≤ t < 10 * (t / 10) + 10
  ∧ (d = 25 → t = 70 → a = 60 → SessionFeedback.xp_earned fb = 18).
Proof.
  intros (k & _ & -> & _)%log_practice_returns.
  cbn [feedback_for SessionFeedback.xp_earned]. cbv zeta.
  split_and!; Z.div_mod_to_equations; lia.
Qed.

(** C2, as the code has it.  Let [S] be the set of calendar dates read
    from the history of the user, the session just logged included, and
    [today] the date the clock shows.  If the [k] days ending today are all
    in [S] and the day before them is a calendar date (0001-01-01 or
    later) that is not, the operation returns the streak [k].  So a history
    of exactly today, yesterday and the day before gives 3 when the day
    before those is a calendar date; today and two days ago without
    yesterday gives 1; a history without today gives 0.  Nothing is said
    here of a history that holds every day of the calendar up to today. *)
Theorem streak_counts_days_back_from_today session (w : world db)
    (S : gset Z) :
  let today := clock w 0%nat in
  date_set_of (sorted_dates (history session w)) = Return S →
  (∀ k, 0 ≤ k → (∀ i, 0 ≤ i < k → today - i ∈ S) → today - k ∉ S →
        1 ≤ today - k →
        ∃ fb w', log_practice session w = (Return fb, w')
                 ∧ SessionFeedback.streak fb = k)
  ∧ (S = {[today; today - 1; today - 2]} → 1 ≤ today - 3 →
     ∃ fb w', log_practice session w = (Return fb, w')
              ∧ SessionFeedback.streak fb = 3)
  ∧ (today ∈ S → today - 1 ∉ S → today - 2 ∈ S → 1 ≤ today - 1 →
     ∃ fb w', log_practice session w = (Return fb, w')
              ∧ SessionFeedback.streak fb = 1)
  ∧ (S ≠ ∅ → today ∉ S →
     ∃ fb w', log_practice session w = (Return fb, w')
              ∧ SessionFeedback.streak fb = 0).
Proof.
  intros today HS.
  assert (Hrun : ∀ k, 0 ≤ k → (∀ i, 0 ≤ i < k → today - i ∈ S) →
            today - k ∉ S → k = 0 ∨ 1 ≤ today - k →
            ∃ fb w', log_practice session w = (Return fb, w')
                     ∧ SessionFeedback.streak fb = k).
  { intros k Hk Hin Hout Hcal.
    eexists _, _. split; [by apply (log_practice_streak _ _ S k)|done]. }
  split; [|split; [|split]].
  - intros k Hk Hin Hout Hcal. apply Hrun; auto.
  - intros -> Hcal. apply Hrun; [lia| |set_solver by lia|lia].
    intros i Hi.
    assert (i = 0 ∨ i = 1 ∨ i = 2) as [->|[->| ->]] by lia;
      rewrite ?Z.sub_0_r; set_solver.
  - intros H0 H1 _ Hcal. apply Hrun; [lia| |done|lia].
    intros i Hi. assert (i = 0) as -> by lia. by rewrite Z.sub_0_r.
  - intros _ H0. apply Hrun; [lia| |by rewrite Z.sub_0_r|by left].
    intros i Hi. lia.
Qed.

(** C3, as the code has it.  When the history read back yields no date
    at all (no date text, or only empty ones) the operation returns the
    streak 0: [streak = 1 if dates else 0]. *)
Theorem streak_of_empty_date_set_is_zero session (w : world db) :
  sorted_dates (history session w) = []
  ∨ date_set_of (sorted_dates (history session w)) = Return ∅ →
  ∃ fb w', log_practice session w = (Return fb, w')
           ∧ SessionFeedback.streak fb = 0.
Proof.
  intros He.
  assert (HS : date_set_of (sorted_dates (history session w)) = Return ∅).
  { destruct He as [-> | ?]; done. }
  exists (feedback_for session 0),
    (final_world session w (reads_before_unlocks session w)).
  split; [|reflexivity].
  apply (log_practice_streak _ _ ∅ 0 HS); [done|intros; lia| |by left].
  apply not_elem_of_empty.
Qed.

(** The two badge tests, on any store. *)
Lemma badge_tests_on_any_store session (w : world db) fb w' :
  log_practice session w = (Return fb, w') →
  ("Clean Pop" ∈ SessionFeedback.badges_unlocked fb
     ↔ 60 ≤ PracticeSession.technique_score session)
  ∧ ("Grinder" ∈ SessionFeedback.badges_unlocked fb
     ↔ 50 ≤ PracticeSession.attempts session).
Proof.
  intros (k & _ & -> & _)%log_practice_returns.
  cbn [feedback_for SessionFeedback.badges_unlocked]. unfold badges_for.
  destruct (Z.leb_spec 60 (PracticeSession.technique_score session));
    destruct (Z.leb_spec 50 (PracticeSession.attempts session));
    cbn [app]; split; split; try lia; try (intros _; set_solver).
  all: intros Hin; exfalso; revert Hin; set_solver.
Qed.

(** C5. The milestone of the response is set exactly when the streak is
    a positive multiple of 7, and it is then "<streak>-Day Streak!". *)
Theorem milestone_iff_positive_multiple_of_7 session (w : world db) fb w' :
  log_practice session w = (Return fb, w') →
  (SessionFeedback.milestone fb ≠ None
     ↔ ∃ n, 0 < n ∧ SessionFeedback.streak fb = 7 * n)
  ∧ (∀ m, SessionFeedback.milestone fb = Some m →
          m = pretty (SessionFeedback.streak fb) +:+ "-Day Streak!").
Proof.
  intros (k & Hk & -> & _)%log_practice_returns.
  cbn [feedback_for SessionFeedback.milestone SessionFeedback.streak].
  unfold milestone_for.
  destruct (Z.eqb_spec k 0) as [->|Hk0]; cbn [negb andb].
  - split; [|done]. split; [done|]. intros (n & ? & ?). lia.
  - destruct (Z.eqb_spec (k mod 7) 0) as [Hm|Hm].
    + split; [|by intros m [= <-]]. split; [|done]. intros _.
      exists (k / 7). pose proof (Z.div_mod k 7). lia.
    + split; [|done]. split; [done|]. intros (n & ? & ->).
      exfalso. apply Hm. rewrite Z.mul_comm. apply Z.mod_mul. lia.
Qed.

(** C6. For a validated session the XP returned lies in [[0, 50]], and
    between two sessions that differ in one of [duration_min],
    [attempts], [technique_score] only, the one with the larger value of
    it earns at least as much. *)
Theorem xp_bounded_and_monotone session session' (w v : world db)
    fb fb' w' v' :
  PracticeSession.valid session = true →
  log_practice session w = (Return fb, w') →
  log_practice session' v = (Return fb', v') →
  0 ≤ SessionFeedback.xp_earned fb ≤ 50
  ∧ (PracticeSession.duration_min session
       ≤ PracticeSession.duration_min session' →
     PracticeSession.attempts session = PracticeSession.attempts session' →
     PracticeSession.technique_score session
       = PracticeSession.technique_score session' →
     SessionFeedback.xp_earned fb ≤ SessionFeedback.xp_earned fb')
  ∧ (PracticeSession.attempts session ≤ PracticeSession.attempts session' →
     PracticeSession.duration_min session
       = PracticeSession.duration_min session' →
     PracticeSession.technique_score session
       = PracticeSession.technique_score session' →
     SessionFeedback.xp_earned fb ≤ SessionFeedback.xp_earned fb')
  ∧ (PracticeSession.technique_score session
       ≤ PracticeSession.technique_score session' →
     PracticeSession.duration_min session
       = PracticeSession.duration_min session' →
     PracticeSession.attempts session = PracticeSession.attempts session' →
     SessionFeedback.xp_earned fb ≤ SessionFeedback.xp_earned fb').
Proof.
  intros Hv (k & _ & -> & _)%log_practice_returns
    (k' & _ & -> & _)%log_practice_returns.
  cbn [feedback_for SessionFeedback.xp_earned].
  unfold PracticeSession.valid in Hv.
  repeat (apply andb_prop in Hv as [Hv ?]).
  split; [Z.div_mod_to_equations; lia|]. split; [|split]; intros Hle <- <-.
  - pose proof (Z.div_le_mono _ _ 5 ltac:(lia) Hle). lia.
  - pose proof (Z.div_le_mono _ _ 10 ltac:(lia) Hle). lia.
  - pose proof (Z.div_le_mono _ _ 10 ltac:(lia) Hle). lia.
Qed.

(** The store the operation leaves is the one it found, with the session
    inserted and then one achievement inserted for each badge returned,
    in their order. *)
Lemma unlock_writes_on_any_store session (w : world db) fb w' :
  log_practice session w = (Return fb, w') →
  let r := reads_before_unlocks session w in
  let achs := unlocks session (SessionFeedback.badges_unlocked fb) (clock w) r in
  store w'
  = fold_left (λ st a, create_document "achievement" (Unlock a) st) achs
      (create_document "practicesession" (Session session) (store w))
  ∧ length achs = length (SessionFeedback.badges_unlocked fb)
  ∧ ∀ (i : nat) b, SessionFeedback.badges_unlocked fb !! i = Some b →
      ∃ a, achs !! i = Some a
           ∧ Achievement.title a = b
           ∧ Achievement.key a = Py.replace " " "-" (Py.lower b)
           ∧ (b = "Clean Pop" ∧ Achievement.key a = "clean-pop"
              ∨ b = "Grinder" ∧ Achievement.key a = "grinder")
           ∧ Achievement.icon a = "⭐"
           ∧ Achievement.user_id a = PracticeSession.user_id session
           ∧ Achievement.description a
             = "Unlocked by session on "
               +:+ Date.isoformat (clock w (r + i)%nat).
Proof.
  intros (k & _ & -> & ->)%log_practice_returns r achs.
  cbn [feedback_for SessionFeedback.badges_unlocked] in *.
  split; [reflexivity|]. subst achs. generalize r. clear.
  assert (Hnames : ∀ b, b ∈ badges_for session →
                        b = "Clean Pop" ∨ b = "Grinder").
  { unfold badges_for. intros b.
    destruct (_ <=? _), (_ <=? _); cbn [app]; set_solver. }
  revert Hnames. generalize (badges_for session) as badges.
  induction badges as [|b rest IH]; intros Hnames r.
  - split; [done|]. intros i b Hb. done.
  - destruct (IH (λ b Hb, Hnames b (list_elem_of_further _ _ _ Hb)) (S r))
      as [Hlen Hall].
    split; [cbn [unlocks length]; by rewrite Hlen|].
    intros [|i] b' Hb'.
    + injection Hb' as ->. eexists. split; [reflexivity|].
      cbn [achievement_for Achievement.title Achievement.key
           Achievement.icon Achievement.user_id Achievement.description].
      rewrite Nat.add_0_r. repeat split; try done.
      destruct (Hnames b' ltac:(by left)) as [-> | ->]; [by left|by right].
    + destruct (Hall i b' Hb') as (a & ? & ? & ? & ? & ? & ? & Hd).
      exists a. repeat split; try done.
      by replace (r + S i)%nat with (S r + i)%nat by lia.
Qed.

(** C9. The outcome of the operation, and with it the whole feedback,
    is the same in two worlds where the same history is read back and the
    clock shows the same date, whatever else the store holds and whatever
    the clock shows later. *)
Theorem feedback_determined_by_session_history_today session
    (w v : world db) :
  history session w = history session v →
  clock w 0%nat = clock v 0%nat →
  (log_practice session w).1 = (log_practice session v).1.
Proof.
  intros Hh Ht. rewrite !log_practice_run, Hh, Ht.
  destruct (sorted_dates _) as [|d ds]; [done|].
  by destruct (count_back _ _).
Qed.

(** C10. The badge list returned has at most two entries, no entry
    twice, only "Clean Pop" and "Grinder", and "Clean Pop" before
    "Grinder" when both are there. *)
Theorem badges_shape session (w : world db) fb w' :
  log_practice session w = (Return fb, w') →
  let badges := SessionFeedback.badges_unlocked fb in
  (length badges ≤ 2)%nat
  ∧ NoDup badges
  ∧ (∀ b, b ∈ badges → b = "Clean Pop" ∨ b = "Grinder")
  ∧ (∀ i j : nat, badges !! i = Some "Clean Pop" →
                  badges !! j = Some "Grinder" → (i < j)%nat).
Proof.
  intros (k & _ & -> & _)%log_practice_returns.
  cbn [feedback_for SessionFeedback.badges_unlocked]. unfold badges_for.
  destruct (_ <=? _), (_ <=? _); cbn [app length].
  all: split; [lia|]; split; [repeat constructor; set_solver|].
  all: split; [set_solver|].
  all: intros [|[|i]] [|[|j]]; cbn; intros; simplify_eq; lia.
Qed.

(** *** When [log_practice] raises, and what the streak it returns is *)

Lemma date_set_of_raises dates dt :
  dt ∈ dates → dt ≠ EmptyString →
  fromisoformat (dt +:+ "T00:00:00+00:00") = None →
  date_set_of dates = Raise ValueError.
Proof.
  intros Hin Hne Hbad. induction dates as [|x rest IH]; [by inversion Hin|].
  cbn [date_set_of]. apply elem_of_cons in Hin as [<-|Hin].
  - rewrite bool_decide_eq_false_2 by done. by rewrite Hbad.
  - case_bool_decide; [by apply IH|].
    destruct (fromisoformat (x +:+ _)); [|done]. by rewrite IH.
Qed.

(** The loop, read backwards: either it stepped off the calendar with
    every day down to the first present, or it stopped on the first absent
    day. *)
Lemma while_day_in_inv fuel (S : gset Z) day count :
  day < Z.of_nat fuel → (0 < fuel)%nat →
  (while_day_in fuel S day count = Raise ValueError
   ∧ day ∈ S ∧ (∀ d, 1 ≤ d ≤ day → d ∈ S))
  ∨ (∃ k, 0 ≤ k
          ∧ while_day_in fuel S day count = Return (count + k)
          ∧ (∀ i, 0 ≤ i < k → day - i ∈ S)
          ∧ (day - k ∉ S)
          ∧ (k = 0 ∨ 1 ≤ day - k)).
Proof.
  revert day count. induction fuel as [|fuel IH]; intros day count Hf H0; [lia|].
  cbn [while_day_in]. case_bool_decide as Hday.
  - unfold Date.fromordinal. destruct (Z.leb_spec 1 (day - 1)) as [H1|H1].
    + unfold mbind, outcome_bind.
      destruct (IH (day - 1) (count + 1)) as [(Hr & Hin & Hall)|(k & Hk & Hr & Hin & Hout & Hcal)];
        [lia|lia| |].
      * left. split_and!; [done|done|]. intros d Hd.
        destruct (decide (d = day)) as [->|]; [done|]. apply Hall. lia.
      * right. exists (k + 1). split_and!; [lia| | | |right; lia].
        -- rewrite Hr. f_equal. lia.
        -- intros i Hi. destruct (decide (i = 0)) as [->|].
           ++ by rewrite Z.sub_0_r.
           ++ replace (day - i) with (day - 1 - (i - 1)) by lia.
              apply Hin. lia.
        -- by replace (day - (k + 1)) with (day - 1 - k) by lia.
    + left. split_and!; [done|done|]. intros d Hd.
      by replace d with day by lia.
  - right. exists 0. split_and!; [done|f_equal; lia|intros; lia| |by left].
    by rewrite Z.sub_0_r.
Qed.

Lemma count_back_inv dates today (S : gset Z) :
  date_set_of dates = Return S →
  (count_back dates today = Raise ValueError
   ∧ today ∈ S ∧ (∀ d, 1 ≤ d ≤ today → d ∈ S))
  ∨ (∃ k, 0 ≤ k
          ∧ count_back dates today = Return k
          ∧ (∀ i, 0 ≤ i < k → today - i ∈ S)
          ∧ (today - k ∉ S)
          ∧ (k = 0 ∨ 1 ≤ today - k)).
Proof.
  intros HS. unfold count_back. rewrite HS. unfold mbind, outcome_bind.
  destruct (while_day_in_inv (Datatypes.S (Z.to_nat today)) S today 0)
    as [?|(k & ? & Hr & ?)]; [lia|lia|by left|].
  right. exists k. by rewrite Hr.
Qed.

Lemma log_practice_bad_text session (w : world db) dt :
  dt ∈ sorted_dates (history session w) →
  dt ≠ EmptyString →
  fromisoformat (dt +:+ "T00:00:00+00:00") = None →
  log_practice session w = (Raise ValueError, failed_world session w).
Proof.
  intros Hin Hne Hbad. rewrite log_practice_run.
  destruct (sorted_dates _) as [|x ds] eqn:Hs; [by inversion Hin|].
  unfold count_back.
  by rewrite (date_set_of_raises _ _ Hin Hne Hbad).
Qed.

(** X1. If the date text of some document of the history is not empty
    and is not accepted by [fromisoformat], the operation raises
    [ValueError] after storing the session, and writes no achievement. *)
Theorem log_practice_unreadable_date session (w : world db) d :
  d ∈ history session w →
  stamp_date d ≠ EmptyString →
  fromisoformat (stamp_date d +:+ "T00:00:00+00:00") = None →
  log_practice session w = (Raise ValueError, failed_world session w).
Proof.
  intros Hd Hne Hbad. apply (log_practice_bad_text session w (stamp_date d));
    [|done|done].
  apply sorted_dates_elem. by exists d.
Qed.

(** X2. A document of the history with no usable [performed_at] (missing,
    null or empty) and no [created_at] is read as the text "None"; as
    [fromisoformat] rejects it, every practice log of that user fails. *)
Theorem log_practice_missing_timestamps session (w : world db) d :
  d ∈ history session w →
  Py.truthy (Doc.performed_at d) = false →
  Doc.created_at d = None →
  fromisoformat "NoneT00:00:00+00:00" = None →
  log_practice session w = (Raise ValueError, failed_world session w).
Proof.
  intros Hd Hp Hc Hbad.
  assert (Hs : stamp_date d = "None").
  { unfold stamp_date, Py.or. by rewrite Hp, Hc. }
  apply (log_practice_bad_text session w "None"); [|done|done].
  apply sorted_dates_elem. by exists d.
Qed.

(** X3. With every date text of the history read, into the set [S], and
    today on the calendar, the operation raises exactly when every day
    from 0001-01-01 to today is in [S], and returns exactly when one of
    them is absent. *)
Theorem log_practice_raises_iff_calendar_full session (w : world db)
    (S : gset Z) :
  let today := clock w 0%nat in
  date_set_of (sorted_dates (history session w)) = Return S →
  1 ≤ today →
  ((∀ d, 1 ≤ d ≤ today → d ∈ S)
     ↔ log_practice session w = (Raise ValueError, failed_world session w))
  ∧ ((∃ d, 1 ≤ d ≤ today ∧ d ∉ S)
     ↔ ∃ fb w', log_practice session w = (Return fb, w')).
Proof.
  intros today HS Htoday. rewrite log_practice_run.
  destruct (sorted_dates _) as [|x ds] eqn:Hs.
  - injection HS as <-. split; split.
    + intros Hall. exfalso.
      apply (not_elem_of_empty (C:=gset Z) today). apply Hall. lia.
    + done.
    + intros _. by eexists _, _.
    + intros _. exists today. split; [lia|apply not_elem_of_empty].
  - fold today.
    destruct (count_back_inv _ today S HS)
      as [(Hr & _ & Hall)|(k & Hk & Hr & Hin & Hout & Hcal)]; rewrite Hr.
    + split; split; [done|done| |by intros (? & ? & ?)].
      intros (d & Hd & Hout). destruct Hout. by apply Hall.
    + split; split; [|done|by eexists _, _|].
      * intros Hall. destruct Hout. apply Hall.
        destruct Hcal as [->|]; [lia|].
        split; [done|lia].
      * intros _. exists (today - k). split; [|done].
        destruct Hcal as [->|]; lia.
Qed.

Lemma streak_run session (w : world db) (S : gset Z) fb w' :
  date_set_of (sorted_dates (history session w)) = Return S →
  log_practice session w = (Return fb, w') →
  0 ≤ SessionFeedback.streak fb
  ∧ (∀ i, 0 ≤ i < SessionFeedback.streak fb → clock w 0%nat - i ∈ S)
  ∧ (clock w 0%nat - SessionFeedback.streak fb ∉ S).
Proof.
  intros HS. rewrite log_practice_run.
  destruct (sorted_dates _) as [|x ds] eqn:Hs.
  - injection HS as <-. intros [= <- _].
    cbn [feedback_for SessionFeedback.streak].
    split_and!; [done|intros; lia|apply not_elem_of_empty].
  - destruct (count_back_inv _ (clock w 0%nat) S HS)
      as [(Hr & _)|(n & Hn & Hr & Hin & Hout & _)]; rewrite Hr; [done|].
    by intros [= <- _].
Qed.

(** X4. The streak returned is the length of the run of present days
    ending today: the days today, today - 1, ..., today - streak + 1 are
    dates of the history and the day before them is not.  So it is at
    least 1 exactly when today is a date of the history, and never more
    than the number of distinct dates. *)
Theorem streak_is_run_ending_today session (w : world db) (S : gset Z)
    fb w' :
  let today := clock w 0%nat in
  let k := SessionFeedback.streak fb in
  date_set_of (sorted_dates (history session w)) = Return S →
  log_practice session w = (Return fb, w') →
  0 ≤ k
  ∧ (∀ i, 0 ≤ i < k → today - i ∈ S)
  ∧ (today - k ∉ S)
  ∧ (1 ≤ k ↔ today ∈ S)
  ∧ k ≤ Z.of_nat (size S).
Proof.
  intros today k HS Hrun.
  destruct (streak_run _ _ _ _ _ HS Hrun) as (Hk & Hin & Hout).
  fold today k in Hk, Hin, Hout.
  split_and!; [done|done|done| |].
  - split.
    + intros ?. rewrite <- (Z.sub_0_r today). apply Hin. lia.
    + intros Ht. destruct (decide (k = 0)) as [Hk0|]; [|lia].
      rewrite Hk0, Z.sub_0_r in Hout. done.
  - set (run := (λ i : nat, today - Z.of_nat i) <$> seq 0 (Z.to_nat k)).
    assert (Hnd : NoDup run).
    { apply NoDup_fmap_2; [intros i j ?; lia|apply NoDup_seq]. }
    assert (Hsub : (list_to_set run : gset Z) ⊆ S).
    { intros x (i & -> & Hi%elem_of_seq)%elem_of_list_to_set%list_elem_of_fmap.
      apply Hin. lia. }
    apply subseteq_size in Hsub.
    rewrite (size_list_to_set run Hnd) in Hsub.
    unfold run in Hsub. rewrite length_fmap, length_seq in Hsub. lia.
Qed.

(** X5. More dates never shorten the streak: of two calls on the same
    day, the one whose history holds every date of the other's returns a
    streak at least as long. *)
Theorem streak_monotone_in_history session session' (w v : world db)
    (S S' : gset Z) fb fb' w' v' :
  date_set_of (sorted_dates (history session w)) = Return S →
  date_set_of (sorted_dates (history session' v)) = Return S' →
  clock w 0%nat = clock v 0%nat →
  S ⊆ S' →
  log_practice session w = (Return fb, w') →
  log_practice session' v = (Return fb', v') →
  SessionFeedback.streak fb ≤ SessionFeedback.streak fb'.
Proof.
  intros HS HS' Hclock Hsub Hrun Hrun'.
  destruct (streak_run _ _ _ _ _ HS Hrun) as (Hk & Hin & _).
  destruct (streak_run _ _ _ _ _ HS' Hrun') as (Hk' & _ & Hout').
  destruct (Z.le_gt_cases (SessionFeedback.streak fb)
              (SessionFeedback.streak fb')) as [|Hlt]; [done|].
  destruct Hout'. rewrite <- Hclock. apply Hsub, Hin. lia.
Qed.

(** X6. For a validated session a badge carries XP with it: "Grinder"
    comes with at least 5 XP, "Clean Pop" with at least 6, both with at
    least 11. *)
Theorem badges_come_with_xp session (w : world db) fb w' :
  PracticeSession.valid session = true →
  log_practice session w = (Return fb, w') →
  ("Grinder" ∈ SessionFeedback.badges_unlocked fb →
   5 ≤ SessionFeedback.xp_earned fb)
  ∧ ("Clean Pop" ∈ SessionFeedback.badges_unlocked fb →
     6 ≤ SessionFeedback.xp_earned fb)
  ∧ ("Grinder" ∈ SessionFeedback.badges_unlocked fb →
     "Clean Pop" ∈ SessionFeedback.badges_unlocked fb →
     11 ≤ SessionFeedback.xp_earned fb).
Proof.
  intros Hv Hrun.
  destruct (badge_tests_on_any_store _ _ _ _ Hrun) as [Hc Hg].
  destruct (log_practice_returns _ _ _ _ Hrun) as (k & _ & -> & _).
  cbn [feedback_for SessionFeedback.xp_earned SessionFeedback.badges_unlocked]
    in *.
  unfold PracticeSession.valid in Hv.
  repeat (apply andb_prop in Hv as [Hv ?]).
  rewrite Hc, Hg. split_and!; intros; Z.div_mod_to_equations; lia.
Qed.

End Handlers.

(** ** The leaderboard *)

Lemma dict_get_set_eq k v default d :
  dict_get k default (dict_set k v d) = v.
Proof.
  induction d as [|[k' v'] r IH]; cbn [dict_set dict_get].
  - by rewrite bool_decide_eq_true_2.
  - case_bool_decide as Hk; cbn [dict_get].
    + by rewrite bool_decide_eq_true_2.
    + by rewrite (bool_decide_eq_false_2 _ Hk).
Qed.

Lemma dict_get_set_ne k k' v default d :
  k ≠ k' → dict_get k' default (dict_set k v d) = dict_get k' default d.
Proof.
  intros Hne. induction d as [|[k0 v0] r IH]; cbn [dict_set dict_get].
  - by rewrite bool_decide_eq_false_2.
  - case_bool_decide as Hk; cbn [dict_get].
    + subst k0. by rewrite !bool_decide_eq_false_2.
    + by rewrite IH.
Qed.

Lemma dict_set_keys k v d :
  (dict_set k v d).*1 = if bool_decide (k ∈ d.*1) then d.*1 else d.*1 ++ [k].
Proof.
  induction d as [|[k' v'] r IH]; cbn [dict_set].
  - by rewrite bool_decide_eq_false_2 by set_solver.
  - destruct (decide (k' = k)) as [->|Hk].
    + rewrite (bool_decide_eq_true_2 (k = k)) by done.
      by rewrite bool_decide_eq_true_2 by set_solver.
    + rewrite (bool_decide_eq_false_2 (k' = k)) by done.
      rewrite !fmap_cons, IH. cbn [fst].
      destruct (decide (k ∈ r.*1)) as [Hin|Hin].
      * by rewrite !bool_decide_eq_true_2 by set_solver.
      * rewrite !bool_decide_eq_false_2; [done| |done].
        intros [?|?]%elem_of_cons; congruence.
Qed.

Lemma dict_get_elem k v default d :
  NoDup d.*1 → (k, v) ∈ d → dict_get k default d = v.
Proof.
  induction d as [|[k' v'] r IH]; [by intros _ ?%elem_of_nil|].
  cbn [fmap list_fmap fst dict_get]. intros [Hk' Hnd]%NoDup_cons.
  intros [[= -> ->]|Hin]%elem_of_cons.
  - by rewrite bool_decide_eq_true_2.
  - rewrite bool_decide_eq_false_2; [by apply IH|].
    intros ->. apply Hk'. by apply (list_elem_of_fmap_2 fst) in Hin.
Qed.

Lemma score_of_snoc sessions s :
  score_of (sessions ++ [s]) = add_session (score_of sessions) s.
Proof. unfold score_of. by rewrite fold_left_app. Qed.

Lemma user_points_snoc sessions s uid :
  user_points (sessions ++ [s]) uid
  = user_points sessions uid
    + (if bool_decide (Doc.user_id s = uid) then points_of s else 0).
Proof.
  unfold user_points. rewrite filter_app, fmap_app, foldr_app.
  rewrite filter_cons, filter_nil.
  generalize (points_of <$> filter (λ s, Doc.user_id s = uid) sessions).
  intros l. case_bool_decide as Hs.
  - rewrite decide_True by done. cbn [fmap list_fmap foldr].
    induction l as [|x l IH]; cbn [foldr]; lia.
  - rewrite decide_False by done. cbn [fmap list_fmap foldr]. lia.
Qed.

Lemma score_of_get sessions uid :
  dict_get uid 0 (score_of sessions) = user_points sessions uid.
Proof.
  induction sessions as [|s sessions IH] using rev_ind; [done|].
  rewrite score_of_snoc, user_points_snoc. unfold add_session.
  case_bool_decide as Hs.
  - subst uid. rewrite dict_get_set_eq, IH. unfold points_of. lia.
  - rewrite dict_get_set_ne by done. rewrite IH. lia.
Qed.

Lemma score_of_keys sessions :
  NoDup (score_of sessions).*1
  ∧ ∀ uid, uid ∈ (score_of sessions).*1
           ↔ ∃ s, s ∈ sessions ∧ Doc.user_id s = uid.
Proof.
  induction sessions as [|s sessions [IHnd IHin]] using rev_ind.
  - split; [constructor|]. intros uid. split.
    + by intros ?%elem_of_nil.
    + by intros (? & ?%elem_of_nil & _).
  - rewrite score_of_snoc. unfold add_session. rewrite dict_set_keys.
    case_bool_decide as Hk.
    + split; [done|]. intros uid. rewrite IHin. split.
      * intros (s' & ? & ?). exists s'. set_solver.
      * intros (s' & [?|Hs%list_elem_of_singleton]%elem_of_app & <-);
          [by exists s'|subst s'; by apply IHin].
    + split.
      * apply NoDup_app. split_and!; [done| |apply NoDup_singleton].
        intros x ? Hx%list_elem_of_singleton. by subst x.
      * intros uid. rewrite elem_of_app, IHin, list_elem_of_singleton. split.
        -- intros [(s' & ? & ?)| ->]; [exists s'|exists s]; set_solver.
        -- intros (s' & [?|Hs%list_elem_of_singleton]%elem_of_app & <-);
             [left; by exists s'|subst s'; by right].
Qed.

Lemma insert_desc_perm x l : insert_desc x l ≡ₚ x :: l.
Proof.
  induction l as [|y r IH]; cbn [insert_desc]; [done|].
  destruct (x.2 <? y.2); [|done]. rewrite IH. apply Permutation_swap.
Qed.

Lemma sorted_desc_perm l : sorted_desc l ≡ₚ l.
Proof.
  induction l as [|x l IH]; [done|].
  cbn [sorted_desc foldr]. fold (sorted_desc l).
  by rewrite insert_desc_perm, IH.
Qed.

Lemma insert_desc_sorted x l :
  StronglySorted by_points_desc l →
  StronglySorted by_points_desc (insert_desc x l).
Proof.
  induction 1 as [|y r Hr IH Hy]; cbn [insert_desc].
  - repeat constructor.
  - destruct (Z.ltb_spec x.2 y.2).
    + constructor; [done|]. rewrite insert_desc_perm.
      constructor; [unfold by_points_desc; lia|done].
    + constructor; [by constructor|].
      constructor; [done|].
      eapply Forall_impl; [exact Hy|]. unfold by_points_desc. intros; lia.
Qed.

Lemma sorted_desc_sorted l : StronglySorted by_points_desc (sorted_desc l).
Proof.
  induction l as [|x l IH]; [constructor|].
  cbn [sorted_desc foldr]. by apply insert_desc_sorted.
Qed.

Lemma StronglySorted_lookup_lt {A} (R : relation A) (l : list A)
    (i j : nat) x y :
  StronglySorted R l → (i < j)%nat → l !! i = Some x → l !! j = Some y →
  R x y.
Proof.
  intros Hl. revert i j. induction Hl as [|a l Hl IH Ha]; intros i j Hij.
  - by rewrite lookup_nil.
  - destruct j as [|j]; [lia|]. destruct i as [|i]; cbn.
    + intros [= <-] Hy. rewrite Forall_forall in Ha.
      apply Ha. by eapply list_elem_of_lookup_2.
    + apply IH. lia.
Qed.

Lemma slice_to_take {A} (n : Z) (l : list A) :
  ∃ m : nat, Py.slice_to n l = take m l
             ∧ (0 ≤ n → m = Z.to_nat n)
             ∧ (n < 0 → m = (length l - Z.to_nat (- n))%nat).
Proof.
  unfold Py.slice_to. destruct (Z.leb_spec 0 n).
  - exists (Z.to_nat n). split_and!; [done|done|lia].
  - eexists. split_and!; [reflexivity|lia|done].
Qed.

Lemma ranked_user_ids ranks : Rank.user_id <$> ranked ranks = ranks.*1.
Proof.
  unfold ranked. rewrite fmap_imap. rewrite <- (imap_const fst).
  apply imap_ext. done.
Qed.

Lemma ranked_lookup ranks (i : nat) row :
  ranked ranks !! i = Some row ↔
  ∃ r, ranks !! i = Some r
       ∧ row = {| Rank.user_id := r.1; Rank.points := r.2;
                  Rank.rank := Z.of_nat i + 1 |}.
Proof. unfold ranked. apply list_lookup_imap_Some. Qed.

(** The complete ranking: every user once, with the user's points, in
    decreasing order of points. *)
Lemma full_ranking sessions :
  let full := sorted_desc (score_of sessions) in
  NoDup full.*1
  ∧ (∀ uid, uid ∈ full.*1 ↔ ∃ s, s ∈ sessions ∧ Doc.user_id s = uid)
  ∧ (∀ r, r ∈ full → r.2 = user_points sessions r.1)
  ∧ StronglySorted by_points_desc full
  ∧ length full
    = size (list_to_set (Doc.user_id <$> sessions) : gset (option string)).
Proof.
  intros full.
  assert (Hperm : full ≡ₚ score_of sessions) by apply sorted_desc_perm.
  destruct (score_of_keys sessions) as [Hnd Hkeys].
  assert (Hfull : ∀ uid, uid ∈ full.*1
                         ↔ ∃ s, s ∈ sessions ∧ Doc.user_id s = uid).
  { intros uid. by rewrite Hperm. }
  split_and!.
  - by rewrite Hperm.
  - done.
  - intros [uid pts] Hr. rewrite Hperm in Hr. cbn [fst snd].
    rewrite <- score_of_get. symmetry. by apply dict_get_elem.
  - apply sorted_desc_sorted.
  - rewrite <- (length_fmap fst).
    rewrite <- (size_list_to_set (C:=gset (option string)))
      by by rewrite Hperm.
    f_equal. apply set_eq. intros uid.
    rewrite !elem_of_list_to_set, Hfull, list_elem_of_fmap. naive_solver.
Qed.

(** C7. The leaderboard response gives each listed user the sum, over the
    user's stored sessions, of [technique_score + attempts // 10]; lists no
    user twice; is in decreasing order of points; is the leading part of
    the complete ranking, of [limit] rows or all of them if there are
    fewer (for [limit >= 0]; a negative [limit] leaves that many rows off
    the end), so that no user left out has more points than a listed one;
    and numbers its rows 1, 2, ...  The two sessions of the
    example give u1 82 points and rank 1, u2 60 points and rank 2. *)
Theorem leaderboard_points_order_ranks {db : Type}
    (get_documents : string → query → db → list Doc.t)
    (limit : Z) (w : world db) :
  let sessions := get_documents "practicesession" Everything (store w) in
  let users : gset (option string) := list_to_set (Doc.user_id <$> sessions) in
  ∃ rows,
    leaderboard get_documents limit w = (Return rows, w)
    ∧ (∀ row, row ∈ rows →
         Rank.user_id row ∈ users
         ∧ Rank.points row = user_points sessions (Rank.user_id row))
    ∧ NoDup (Rank.user_id <$> rows)
    ∧ (∀ (i j : nat) r r', (i < j)%nat →
         rows !! i = Some r → rows !! j = Some r' →
         Rank.points r' ≤ Rank.points r)
    ∧ (∀ uid row, uid ∈ users → uid ∉ Rank.user_id <$> rows → row ∈ rows →
         user_points sessions uid ≤ Rank.points row)
    ∧ (0 ≤ limit → length rows = Nat.min (Z.to_nat limit) (size users))
    ∧ (limit < 0 → length rows = (size users - Z.to_nat (- limit))%nat)
    ∧ (∀ (i : nat) row, rows !! i = Some row →
         Rank.rank row = Z.of_nat i + 1)
    ∧ (sessions = Sample.board → limit = 20 →
       rows = [ {| Rank.user_id := Some "u1"; Rank.points := 82;
                   Rank.rank := 1 |};
                {| Rank.user_id := Some "u2"; Rank.points := 60;
                   Rank.rank := 2 |} ]).
Proof.
  intros sessions users.
  exists (leaderboard_of limit sessions). split; [by destruct w|].
  unfold leaderboard_of.
  destruct (full_ranking sessions) as (Hnd & Hkeys & Hpts & Hsorted & Hlen).
  set (full := sorted_desc (score_of sessions)) in *.
  destruct (slice_to_take limit full) as (m & -> & Hm & Hm').
  assert (Husers : ∀ uid, uid ∈ users ↔ uid ∈ full.*1).
  { intros uid. unfold users.
    rewrite elem_of_list_to_set, Hkeys, list_elem_of_fmap. naive_solver. }
  assert (Hrow : ∀ (i : nat) row, ranked (take m full) !! i = Some row →
            ∃ r, full !! i = Some r ∧ (i < m)%nat
                 ∧ Rank.user_id row = r.1 ∧ Rank.points row = r.2
                 ∧ Rank.rank row = Z.of_nat i + 1).
  { intros i row (r & [Hr Hi]%lookup_take_Some & ->)%ranked_lookup.
    by exists r. }
  split_and!.
  - intros row (i & Hi)%list_elem_of_lookup_1.
    destruct (Hrow i row Hi) as (r & Hr & _ & -> & -> & _).
    apply list_elem_of_lookup_2 in Hr. split; [|by apply Hpts].
    apply Husers. by apply list_elem_of_fmap_2.
  - rewrite ranked_user_ids, fmap_take.
    eapply sublist_NoDup; [exact Hnd|apply sublist_take].
  - intros i j r r' Hij Hi Hj.
    destruct (Hrow i r Hi) as (x & Hx & _ & _ & -> & _).
    destruct (Hrow j r' Hj) as (y & Hy & _ & _ & -> & _).
    apply (StronglySorted_lookup_lt by_points_desc full i j x y); done.
  - intros uid row Huid Hout (i & Hi)%list_elem_of_lookup_1.
    destruct (Hrow i row Hi) as (x & Hx & Him & _ & -> & _).
    apply Husers, list_elem_of_fmap in Huid as ([uid' pts] & -> & Hin).
    pose proof (Hpts _ Hin) as Hp. cbn [fst snd] in Hp |- *. rewrite <- Hp.
    apply list_elem_of_lookup_1 in Hin as (j & Hj).
    destruct (decide (j < m)%nat) as [Hjm|Hjm].
    + exfalso. apply Hout. rewrite ranked_user_ids.
      apply (list_elem_of_fmap_2 fst (take m full) (uid', pts)).
      apply elem_of_take. by exists j.
    + apply (StronglySorted_lookup_lt by_points_desc full i j x (uid', pts));
        [done|lia|done|done].
  - intros Hlim. unfold ranked. rewrite length_imap, length_take, Hlen.
    by rewrite (Hm Hlim).
  - intros Hlim. unfold ranked, users.
    rewrite length_imap, length_take, <- Hlen, (Hm' Hlim). lia.
  - intros i row Hi. by destruct (Hrow i row Hi) as (_ & _ & _ & _ & _ & ?).
  - intros Hb Hl. subst full. rewrite Hb in *.
    assert (m = 20%nat) as -> by (rewrite Hm; lia).
    vm_compute. reflexivity.
Qed.

(** ** Properties stated on the store of the specification *)

Lemma MemStore_write_all now achs (st : MemStore.t) :
  MemStore.achievement
    (fold_left (λ st a, MemStore.create_document now "achievement" (Unlock a) st)
       achs st)
  = MemStore.achievement st ++ achs.
Proof.
  revert st.
  induction achs as [|a achs IH]; intros st; cbn [fold_left].
  - by rewrite app_nil_r.
  - rewrite IH. cbn [MemStore.create_document].
    rewrite bool_decide_eq_true_2 by done. cbn [MemStore.achievement].
    by rewrite <- app_assoc.
Qed.

(** C4. "Clean Pop" is among the badges returned exactly when
    [technique_score >= 60], "Grinder" exactly when [attempts >= 50]; the
    two tests do not depend on each other, and each of the four
    combinations is returned for some validated session. *)
Theorem badges_by_threshold :
  (∀ (db : Type) (create_document : string → model → db → db)
     (get_documents : string → query → db → list Doc.t)
     (fromisoformat : string → option Z)
     session (w : world db) fb w',
     log_practice create_document get_documents fromisoformat session w
     = (Return fb, w') →
     ("Clean Pop" ∈ SessionFeedback.badges_unlocked fb
        ↔ 60 ≤ PracticeSession.technique_score session)
     ∧ ("Grinder" ∈ SessionFeedback.badges_unlocked fb
        ↔ 50 ≤ PracticeSession.attempts session))
  ∧ (∀ clean grinder : bool,
       ∃ session fb w',
         PracticeSession.valid session = true
         ∧ log_practice (MemStore.create_document Sample.now)
             MemStore.get_documents Date.fromisoformat_midnight
             session Sample.fresh = (Return fb, w')
         ∧ SessionFeedback.badges_unlocked fb
           = (if clean then ["Clean Pop"] else [])
             ++ (if grinder then ["Grinder"] else [])).
Proof.
  split.
  - intros. by eapply badge_tests_on_any_store.
  - intros clean grinder.
    exists {| PracticeSession.user_id := "a";
              PracticeSession.duration_min := 25;
              PracticeSession.technique_score := if clean then 70 else 30;
              PracticeSession.attempts := if grinder then 60 else 10;
              PracticeSession.notes := None;
              PracticeSession.performed_at := None |}.
    destruct clean, grinder; eexists _, _; (split; [reflexivity|]);
      (split; [vm_compute; reflexivity|reflexivity]).
Qed.

(** C8. For each badge returned, in order, the operation inserts one
    achievement whose title is the badge, whose key is the badge in lower
    case with hyphens for spaces ("clean-pop", "grinder"), whose icon is
    the star and whose description names the date the clock shows when it
    is written.  Nothing is looked up first: in the store of the
    specification the achievement collection is what it was, whatever it
    held, followed by these documents, so a session that qualifies again
    adds the same unlocks again. *)
Theorem one_achievement_per_badge :
  (∀ (db : Type) (create_document : string → model → db → db)
     (get_documents : string → query → db → list Doc.t)
     (fromisoformat : string → option Z)
     session (w : world db) fb w',
     log_practice create_document get_documents fromisoformat session w
     = (Return fb, w') →
     let r := reads_before_unlocks create_document get_documents session w in
     let achs :=
       unlocks session (SessionFeedback.badges_unlocked fb) (clock w) r in
     store w'
     = fold_left (λ st a, create_document "achievement" (Unlock a) st) achs
         (create_document "practicesession" (Session session) (store w))
     ∧ length achs = length (SessionFeedback.badges_unlocked fb)
     ∧ ∀ (i : nat) b, SessionFeedback.badges_unlocked fb !! i = Some b →
         ∃ a, achs !! i = Some a
              ∧ Achievement.title a = b
              ∧ Achievement.key a = Py.replace " " "-" (Py.lower b)
              ∧ (b = "Clean Pop" ∧ Achievement.key a = "clean-pop"
                 ∨ b = "Grinder" ∧ Achievement.key a = "grinder")
              ∧ Achievement.icon a = "⭐"
              ∧ Achievement.user_id a = PracticeSession.user_id session
              ∧ Achievement.description a
                = "Unlocked by session on "
                  +:+ Date.isoformat (clock w (r + i)%nat))
  ∧ (∀ (now : string) (fromisoformat : string → option Z)
       session (w : world MemStore.t) fb w',
       log_practice (MemStore.create_document now) MemStore.get_documents
         fromisoformat session w = (Return fb, w') →
       MemStore.achievement (store w')
       = MemStore.achievement (store w)
         ++ unlocks session (SessionFeedback.badges_unlocked fb) (clock w)
              (reads_before_unlocks (MemStore.create_document now)
                 MemStore.get_documents session w)).
Proof.
  split.
  - intros. by eapply unlock_writes_on_any_store.
  - intros now parse session w fb w' Hrun.
    destruct (unlock_writes_on_any_store _ _ _ _ _ _ _ Hrun)
      as [-> _].
    rewrite MemStore_write_all. by destruct w as [[]].
Qed.

(** ** More on the leaderboard *)

Lemma ranked_take (n : nat) ranks : ranked (take n ranks) = take n (ranked ranks).
Proof.
  apply list_eq. intros i. unfold ranked.
  rewrite list_lookup_imap.
  destruct (decide (i < n)%nat).
  - by rewrite !lookup_take_lt, list_lookup_imap by done.
  - by rewrite !lookup_take_ge by lia.
Qed.

Lemma ranked_points ranks : Rank.points <$> ranked ranks = ranks.*2.
Proof.
  unfold ranked. rewrite fmap_imap. rewrite <- (imap_const snd).
  apply imap_ext. done.
Qed.

Lemma leaderboard_run {db : Type}
    (get_documents : string → query → db → list Doc.t) limit (w : world db) :
  leaderboard get_documents limit w
  = (Return (leaderboard_of limit
               (get_documents "practicesession" Everything (store w))), w).
Proof. by destruct w. Qed.

(** X7. A smaller limit shows the beginning of what a larger one shows,
    ranks included. *)
Theorem leaderboard_smaller_limit_is_prefix {db : Type}
    (get_documents : string → query → db → list Doc.t)
    (limit limit' : Z) (w : world db) rows rows' :
  0 ≤ limit ≤ limit' →
  (leaderboard get_documents limit w).1 = Return rows →
  (leaderboard get_documents limit' w).1 = Return rows' →
  rows = take (Z.to_nat limit) rows'.
Proof.
  intros Hl. rewrite !leaderboard_run. cbn [fst]. intros [= <-] [= <-].
  unfold leaderboard_of, Py.slice_to.
  rewrite !(proj2 (Z.leb_le 0 _)) by lia.
  rewrite !ranked_take, take_take. f_equal. lia.
Qed.

Lemma sum_permutation (l l' : list Z) :
  l ≡ₚ l' → foldr Z.add 0 l = foldr Z.add 0 l'.
Proof. induction 1; cbn [foldr]; lia. Qed.

Lemma dict_set_sum k v d :
  foldr Z.add 0 (dict_set k v d).*2 = foldr Z.add 0 d.*2 - dict_get k 0 d + v.
Proof.
  induction d as [|[k' v'] r IH]; cbn [dict_set dict_get].
  - cbn. lia.
  - case_bool_decide; rewrite !fmap_cons; cbn [foldr snd]; [lia|].
    rewrite IH. lia.
Qed.

Lemma sum_from (a : Z) (l : list Z) :
  foldr Z.add a l = foldr Z.add 0 l + a.
Proof. induction l as [|x l IH]; cbn [foldr]; lia. Qed.

Lemma score_of_sum sessions :
  foldr Z.add 0 (score_of sessions).*2 = foldr Z.add 0 (points_of <$> sessions).
Proof.
  induction sessions as [|s sessions IH] using rev_ind; [done|].
  rewrite score_of_snoc, fmap_app, foldr_app. unfold add_session.
  rewrite dict_set_sum, IH. cbn [fmap list_fmap foldr].
  rewrite (sum_from (points_of s + 0)). unfold points_of at 3. lia.
Qed.

(** X8. With a limit of at least the number of users the leaderboard
    lists every user who has a stored session, and the points it shows add
    up to the points of all stored sessions. *)
Theorem leaderboard_complete_and_conservative {db : Type}
    (get_documents : string → query → db → list Doc.t)
    (limit : Z) (w : world db) rows :
  let sessions := get_documents "practicesession" Everything (store w) in
  let users : gset (option string) := list_to_set (Doc.user_id <$> sessions) in
  Z.of_nat (size users) ≤ limit →
  (leaderboard get_documents limit w).1 = Return rows →
  length rows = size users
  ∧ (∀ s, s ∈ sessions → Doc.user_id s ∈ Rank.user_id <$> rows)
  ∧ foldr Z.add 0 (Rank.points <$> rows)
    = foldr Z.add 0 (points_of <$> sessions).
Proof.
  intros sessions users Hlim. rewrite leaderboard_run. cbn [fst].
  intros [= <-]. fold sessions.
  destruct (full_ranking sessions) as (_ & Hkeys & _ & _ & Hlen).
  unfold leaderboard_of, Py.slice_to.
  rewrite (proj2 (Z.leb_le 0 _)) by lia.
  rewrite take_ge by (rewrite Hlen; fold users; lia).
  split_and!.
  - unfold ranked. by rewrite length_imap.
  - intros s Hs. rewrite ranked_user_ids. apply Hkeys. by exists s.
  - rewrite ranked_points, <- score_of_sum.
    apply sum_permutation. by rewrite sorted_desc_perm.
Qed.

Lemma precedes_cons {A} (x y z : A) l :
  precedes x y (z :: l) ↔ (x = z ∧ y ∈ l) ∨ precedes x y l.
Proof.
  split.
  - intros (i & j & Hij & Hi & Hj). destruct j as [|j]; [lia|].
    destruct i as [|i]; cbn in Hi, Hj.
    + left. split; [congruence|by eapply list_elem_of_lookup_2].
    + right. exists i, j. split; [lia|done].
  - intros [[-> (j & Hj)%list_elem_of_lookup_1]|(i & j & Hij & Hi & Hj)].
    + exists 0%nat, (S j). split; [lia|done].
    + exists (S i), (S j). split; [lia|done].
Qed.

Lemma precedes_elem_of {A} (x y : A) l : precedes x y l → x ∈ l ∧ y ∈ l.
Proof.
  intros (i & j & _ & Hi & Hj). split; by eapply list_elem_of_lookup_2.
Qed.

Lemma insert_desc_precedes a b x l :
  precedes a b (insert_desc x l) →
  precedes a b l ∨ (a = x ∧ b ∈ l) ∨ (b = x ∧ x.2 < a.2).
Proof.
  induction l as [|y r IH]; cbn [insert_desc].
  - intros (i & j & Hij & Hi & Hj). destruct j as [|[|j]]; [lia| |done].
    destruct i; [done|lia].
  - destruct (Z.ltb_spec x.2 y.2) as [Hlt|Hge].
    + rewrite !precedes_cons. intros [[-> Hb]|Hp].
      * rewrite insert_desc_perm in Hb.
        apply elem_of_cons in Hb as [->|Hb]; [by right; right|].
        left. by left.
      * destruct (IH Hp) as [?|[[-> ?]|[-> ?]]].
        -- left. by right.
        -- right. left. split; [done|by right].
        -- by right; right.
    + rewrite precedes_cons. intros [[-> Hb]|Hp]; [|by left].
      right. by left.
Qed.

(** [sorted] is stable: rows with the same points keep the order of the
    dictionary. *)
Lemma sorted_desc_stable a b l :
  precedes a b (sorted_desc l) → a.2 = b.2 → precedes a b l.
Proof.
  revert a b. induction l as [|x l IH]; intros a b.
  - intros (i & j & _ & Hi & _). done.
  - cbn [sorted_desc foldr]. fold (sorted_desc l).
    intros [Hp|[[-> Hb]|[-> Hlt]]]%insert_desc_precedes Heq.
    + apply precedes_cons. right. by apply IH.
    + apply precedes_cons. left. split; [done|].
      by rewrite sorted_desc_perm in Hb.
    + lia.
Qed.

(** The dictionary holds the users in the order of their first session. *)
Lemma score_of_key_order sessions u v :
  precedes u v (score_of sessions).*1 →
  ∃ n : nat, u ∈ Doc.user_id <$> take n sessions
             ∧ v ∉ Doc.user_id <$> take n sessions.
Proof.
  induction sessions as [|s sessions IH] using rev_ind.
  - intros (i & j & _ & Hi & _). done.
  - destruct (score_of_keys sessions) as [Hnd Hkeys].
    rewrite score_of_snoc. unfold add_session. rewrite dict_set_keys.
    assert (Hold : precedes u v (score_of sessions).*1 →
              ∃ n : nat, u ∈ Doc.user_id <$> take n (sessions ++ [s])
                         ∧ v ∉ Doc.user_id <$> take n (sessions ++ [s])).
    { intros (n & Hu & Hv)%IH.
      exists (n `min` length sessions)%nat.
      rewrite take_app_le by lia.
      assert (take (n `min` length sessions) sessions = take n sessions)
        as ->; [|done].
      destruct (decide (n ≤ length sessions)%nat).
      - by rewrite Nat.min_l.
      - rewrite Nat.min_r by lia. by rewrite !take_ge by lia. }
    case_bool_decide as Hk; [done|].
    intros (i & j & Hij & Hi & Hj).
    destruct (decide (j < length (score_of sessions).*1)%nat) as [Hj'|Hj'].
    + apply Hold. exists i, j.
      rewrite lookup_app_l in Hi by lia. by rewrite lookup_app_l in Hj.
    + rewrite lookup_app_l in Hi
        by (apply lookup_lt_Some in Hj; rewrite length_app in Hj; cbn in Hj; lia).
      rewrite lookup_app_r in Hj by lia.
      apply list_lookup_singleton_Some in Hj as [_ <-].
      exists (length sessions). rewrite take_app_length.
      split.
      * apply list_elem_of_lookup_2, Hkeys in Hi as (s' & Hs' & <-).
        by apply list_elem_of_fmap_2.
      * intros (s' & Heq & Hin)%list_elem_of_fmap. apply Hk, Hkeys.
        by exists s'.
Qed.

(** X9. Ties are broken by seniority: of two listed users with the same
    points, the one ranked first is the one whose first stored session
    comes first, that is, some beginning of the session list holds a
    session of the first and none of the second. *)
Theorem leaderboard_ties_by_first_session {db : Type}
    (get_documents : string → query → db → list Doc.t)
    (limit : Z) (w : world db) rows (i j : nat) r r' :
  let sessions := get_documents "practicesession" Everything (store w) in
  (leaderboard get_documents limit w).1 = Return rows →
  (i < j)%nat → rows !! i = Some r → rows !! j = Some r' →
  Rank.points r = Rank.points r' →
  ∃ n : nat, Rank.user_id r ∈ Doc.user_id <$> take n sessions
             ∧ Rank.user_id r' ∉ Doc.user_id <$> take n sessions.
Proof.
  intros sessions. rewrite leaderboard_run. cbn [fst]. intros [= <-].
  fold sessions. unfold leaderboard_of.
  destruct (slice_to_take limit (sorted_desc (score_of sessions)))
    as (m & -> & _).
  intros Hij (p & [Hp _]%lookup_take_Some & ->)%ranked_lookup
    (q & [Hq _]%lookup_take_Some & ->)%ranked_lookup Heq.
  cbn [Rank.points Rank.user_id] in *.
  apply score_of_key_order.
  assert (Hpq : precedes p q (score_of sessions)).
  { apply sorted_desc_stable; [|done]. by exists i, j. }
  destruct Hpq as (a & b & Hab & Ha & Hb).
  exists a, b. split; [done|]. by rewrite !list_lookup_fmap, Ha, Hb.
Qed.

(** ** A practice log followed by the leaderboard *)

Lemma leaderboard_of_points limit sessions row :
  row ∈ leaderboard_of limit sessions →
  Rank.points row = user_points sessions (Rank.user_id row).
Proof.
  unfold leaderboard_of.
  destruct (slice_to_take limit (sorted_desc (score_of sessions)))
    as (m & -> & _).
  intros (i & (p & [Hp _]%lookup_take_Some & ->)%ranked_lookup)%list_elem_of_lookup_1.
  destruct (full_ranking sessions) as (_ & _ & Hpts & _).
  apply Hpts. by eapply list_elem_of_lookup_2.
Qed.

Lemma user_points_permutation sessions sessions' uid :
  sessions ≡ₚ sessions' → user_points sessions uid = user_points sessions' uid.
Proof.
  intros Hp. unfold user_points. apply sum_permutation. by rewrite Hp.
Qed.

Lemma user_points_cons d sessions uid :
  user_points (d :: sessions) uid
  = (if bool_decide (Doc.user_id d = uid) then points_of d else 0)
    + user_points sessions uid.
Proof.
  unfold user_points. rewrite filter_cons.
  case_bool_decide; [by rewrite decide_True|by rewrite decide_False].
Qed.

(** X10. On a store that gives back what was inserted (a stored session
    comes back with its user, score and attempts, and an achievement does
    not disturb the session collection), a call of the practice log,
    whether it returns or raises, leaves the user with
    [technique_score + attempts // 10] more leaderboard points and every
    other user with the same points. *)
Theorem practice_log_counts_on_leaderboard {db : Type}
    (create_document : string → model → db → db)
    (get_documents : string → query → db → list Doc.t)
    (fromisoformat : string → option Z)
    session (w : world db) (limit : Z) rows row :
  (∀ st s, ∃ d,
      get_documents "practicesession" Everything
        (create_document "practicesession" (Session s) st)
      ≡ₚ d :: get_documents "practicesession" Everything st
      ∧ Doc.user_id d = Some (PracticeSession.user_id s)
      ∧ Doc.technique_score d = Some (PracticeSession.technique_score s)
      ∧ Doc.attempts d = Some (PracticeSession.attempts s)) →
  (∀ st a,
      get_documents "practicesession" Everything
        (create_document "achievement" (Unlock a) st)
      = get_documents "practicesession" Everything st) →
  let w' :=
    (log_practice create_document get_documents fromisoformat session w).2 in
  let before := get_documents "practicesession" Everything (store w) in
  (leaderboard get_documents limit w').1 = Return rows →
  row ∈ rows →
  Rank.points row
  = user_points before (Rank.user_id row)
    + (if bool_decide
            (Rank.user_id row = Some (PracticeSession.user_id session))
       then PracticeSession.technique_score session
            + PracticeSession.attempts session / 10
       else 0).
Proof.
  intros Hsession Hunlock w' before.
  rewrite leaderboard_run. cbn [fst]. intros [= <-] Hrow.
  rewrite (leaderboard_of_points _ _ _ Hrow).
  assert (Hw : ∀ achs st,
            get_documents "practicesession" Everything
              (write_all create_document achs st)
            = get_documents "practicesession" Everything st).
  { unfold write_all. induction achs as [|a achs IH]; intros st; [done|].
    cbn [fold_left]. by rewrite IH, Hunlock. }
  assert (Hstore :
            get_documents "practicesession" Everything (store w')
            = get_documents "practicesession" Everything
                (create_document "practicesession" (Session session)
                   (store w))).
  { subst w'. rewrite log_practice_run.
    destruct (sorted_dates _); [apply Hw|].
    destruct (count_back _ _ _); [apply Hw|done|done]. }
  rewrite Hstore.
  destruct (Hsession (store w) session) as (d & Hperm & Hu & Ht & Ha).
  rewrite (user_points_permutation _ _ _ Hperm), user_points_cons.
  fold before. unfold points_of. rewrite Hu, Ht, Ha. cbn [default from_option id].
  assert (bool_decide (Some (PracticeSession.user_id session)
                       = Rank.user_id row)
          = bool_decide (Rank.user_id row
                         = Some (PracticeSession.user_id session))) as ->.
  { apply bool_decide_ext. naive_solver. }
  unfold id. case_bool_decide; lia.
Qed.

(** ** The attempts feed *)

(** X11. [list_attempts] leaves the store as it is and returns the
    documents it read, in their order, each without the key [_id], with
    the text of what [_id] held under the key [id], and with every other
    key as it was. *)
Theorem list_attempts_exposes_id {db object : Type}
    (str_object : object → string)
    (get_documents_limit :
       string → query → Z → db → list (gmap string (value object)))
    (limit : Z) (w : world db) :
  let docs := get_documents_limit "attempt" Everything limit (store w) in
  ∃ rows,
    list_attempts str_object get_documents_limit limit w = (Return rows, w)
    ∧ length rows = length docs
    ∧ ∀ (i : nat) d, docs !! i = Some d →
        ∃ d', rows !! i = Some d'
              ∧ d' !! "_id" = None
              ∧ d' !! "id" = Some (Text (str_get str_object d "_id"))
              ∧ ∀ key, key ≠ "id" → key ≠ "_id" → d' !! key = d !! key.
Proof.
  intros docs. eexists. split; [reflexivity|]. fold docs.
  split; [by rewrite length_fmap|].
  intros i d Hd. exists (expose_id str_object d).
  split; [by rewrite list_lookup_fmap, Hd|]. unfold expose_id.
  split_and!.
  - apply lookup_delete_eq.
  - rewrite lookup_delete_ne by done. apply lookup_insert_eq.
  - intros key Hid H_id.
    rewrite lookup_delete_ne by done. by rewrite lookup_insert_ne.
Qed.

(** X12. A document that has no [_id] gets the id "None", whatever it
    held under [id] before; this is what a document that went through the
    handler once gets when it goes through it again. *)
Theorem list_attempts_without_id {db object : Type}
    (str_object : object → string)
    (get_documents_limit :
       string → query → Z → db → list (gmap string (value object)))
    (limit : Z) (w : world db) rows (i : nat) d d' :
  (list_attempts str_object get_documents_limit limit w).1 = Return rows →
  get_documents_limit "attempt" Everything limit (store w) !! i = Some d →
  d !! "_id" = None →
  rows !! i = Some d' →
  d' = <["id" := Text "None"]> d
  ∧ expose_id str_object d' = d'
  ∧ ∀ e, expose_id str_object (expose_id str_object e)
         = <["id" := Text "None"]> (delete "_id" e).
Proof.
  unfold list_attempts. cbn [fst]. intros [= <-] Hd Hnone.
  rewrite list_lookup_fmap, Hd. intros [= <-].
  assert (Hexp : ∀ e : gmap string (value object), e !! "_id" = None →
            expose_id str_object e = <["id" := Text "None"]> e).
  { intros e He. unfold expose_id, str_get. rewrite He.
    apply delete_id. rewrite lookup_insert_ne by done. done. }
  split_and!.
  - by apply Hexp.
  - rewrite (Hexp d Hnone), Hexp by (by rewrite lookup_insert_ne).
    apply insert_insert_eq.
  - intros e. rewrite Hexp.
    + unfold expose_id. rewrite delete_insert_ne by done.
      by rewrite insert_insert_eq.
    + unfold expose_id. apply lookup_delete_eq.
Qed.

(** ** The diagnostic *)

Lemma connected_but_error_is_not_working e :
  "⚠️  Connected but Error: " +:+ String.substring 0 50 e
  ≠ "✅ Connected & Working".
Proof. cbn. discriminate. Qed.

(** X13. The diagnostic lists at most ten collections, the first ones
    the store names, and none unless the store is there and could list
    them; it says "Connected" exactly when the store is there, and
    "Connected & Working" exactly when the store could also list its
    collections. *)
Theorem test_database_status (db : option Handle.t)
    (getenv : string → option string) :
  let r := test_database db getenv in
  Health.backend r = "✅ Running"
  ∧ (length (Health.collections r) ≤ 10)%nat
  ∧ (∀ h names, db = Some h → Handle.list_collection_names h = inr names →
       Health.collections r = take 10 names)
  ∧ (Health.collections r ≠ [] →
       Health.database r = "✅ Connected & Working")
  ∧ (Health.connection_status r = "Connected" ↔ db ≠ None)
  ∧ (Health.database r = "✅ Connected & Working"
       ↔ ∃ h names, db = Some h
                    ∧ Handle.list_collection_names h = inr names).
Proof.
  intros r. subst r. unfold test_database.
  destruct db as [[name [e|names]]|]; cbn.
  - split_and!; [done|lia|by intros ? ? [= <-]|done|done|].
    split; [|by intros (? & ? & [= <-] & ?)].
    intros He. by apply connected_but_error_is_not_working in He.
  - split_and!; [done| |by intros ? ? [= <-] [= <-]|done|done|].
    + rewrite length_take. lia.
    + split; [|done]. intros _. by eexists _, _.
  - split_and!; [done|lia|done|done| |].
    + split; [discriminate|done].
    + split; [discriminate|by intros (? & ? & ? & _)].
Qed.

(** X14. The two fields [database_url] and [database_name] of the
    diagnostic tell only whether the environment variable is set to a
    non-empty text: they are the same whatever the store is, and never show
    the name of the database. *)
Theorem test_database_env_fields (db db' : option Handle.t)
    (getenv : string → option string) :
  let r := test_database db getenv in
  Health.database_url r = Health.database_url (test_database db' getenv)
  ∧ Health.database_name r = Health.database_name (test_database db' getenv)
  ∧ (Health.database_url r = Some "✅ Set"
       ↔ ∃ v, getenv "DATABASE_URL" = Some v ∧ v ≠ EmptyString)
  ∧ (Health.database_name r = Some "✅ Set"
       ↔ ∃ v, getenv "DATABASE_NAME" = Some v ∧ v ≠ EmptyString)
  ∧ (Health.database_url r = Some "✅ Set"
       ∨ Health.database_url r = Some "❌ Not Set")
  ∧ (Health.database_name r = Some "✅ Set"
       ∨ Health.database_name r = Some "❌ Not Set").
Proof.
  intros r. subst r.
  assert (Htruthy : ∀ o, Py.truthy o = true
                         ↔ ∃ v, o = Some v ∧ v ≠ EmptyString).
  { intros [v|]; cbn.
    - rewrite negb_true_iff, bool_decide_eq_false. naive_solver.
    - naive_solver. }
  assert (Hurl : ∀ d, Health.database_url (test_database d getenv)
            = Some (if Py.truthy (getenv "DATABASE_URL")
                    then "✅ Set" else "❌ Not Set")).
  { by intros [[? [?|?]]|]. }
  assert (Hname : ∀ d, Health.database_name (test_database d getenv)
            = Some (if Py.truthy (getenv "DATABASE_NAME")
                    then "✅ Set" else "❌ Not Set")).
  { by intros [[? [?|?]]|]. }
  rewrite !Hurl, !Hname, <- !Htruthy.
  destruct (Py.truthy (getenv "DATABASE_URL")),
    (Py.truthy (getenv "DATABASE_NAME")); naive_solver.
Qed.

(** ** The properties at work on sample data *)

Local Abbreviation run :=
  (log_practice (MemStore.create_document Sample.now) MemStore.get_documents
     Date.fromisoformat_midnight).
Local Abbreviation run_blind :=
  (log_practice Sample.blind_create Sample.blind_get
     Date.fromisoformat_midnight).
Local Abbreviation dates_read s w :=
  (date_set_of Date.fromisoformat_midnight
     (sorted_dates
        (history (MemStore.create_document Sample.now) MemStore.get_documents
           s w))).

Local Abbreviation mem_create := (MemStore.create_document Sample.now).

Lemma xp_earned_formula_witness :
  ∃ fb w', run Sample.session Sample.fresh = (Return fb, w')
           ∧ SessionFeedback.xp_earned fb = 18.
Proof.
  eexists _, _. split; [vm_compute; reflexivity|].
  refine (proj2 (proj2 (proj2 (proj2
            (xp_earned_formula mem_create MemStore.get_documents
               Date.fromisoformat_midnight Sample.session Sample.fresh
               _ _ _)))) _ _ _); vm_compute; reflexivity.
Defined.

Lemma streak_counts_days_back_from_today_witness :
  (∃ fb w', run Sample.session Sample.two_days = (Return fb, w')
            ∧ SessionFeedback.streak fb = 3)
  ∧ (∃ fb w', run Sample.session Sample.two_days = (Return fb, w')
              ∧ SessionFeedback.streak fb = 3)
  ∧ (∃ fb w', run Sample.session Sample.gap = (Return fb, w')
              ∧ SessionFeedback.streak fb = 1)
  ∧ (∃ fb w', run Sample.late_session Sample.fresh = (Return fb, w')
              ∧ SessionFeedback.streak fb = 0).
Proof.
  assert (H3 : dates_read Sample.session Sample.two_days
               = Return {[738955; 738955 - 1; 738955 - 2]})
    by (vm_compute; reflexivity).
  assert (H1 : dates_read Sample.session Sample.gap
               = Return {[738955; 738953]})
    by (vm_compute; reflexivity).
  assert (H0 : dates_read Sample.late_session Sample.fresh
               = Return {[738946]})
    by (vm_compute; reflexivity).
  split_and!.
  - apply (proj1 (streak_counts_days_back_from_today mem_create
             MemStore.get_documents Date.fromisoformat_midnight _ _ _ H3) 3).
    + lia.
    + intros i Hi.
      assert (i = 0 ∨ i = 1 ∨ i = 2) as [->|[->| ->]] by lia; compute_done.
    + compute_done.
    + compute_done.
  - apply (proj1 (proj2 (streak_counts_days_back_from_today mem_create
             MemStore.get_documents Date.fromisoformat_midnight _ _ _ H3)));
      [reflexivity|compute_done].
  - apply (proj1 (proj2 (proj2
             (streak_counts_days_back_from_today mem_create
             MemStore.get_documents Date.fromisoformat_midnight _ _ _ H1))));
      compute_done.
  - apply (proj2 (proj2 (proj2
             (streak_counts_days_back_from_today mem_create
             MemStore.get_documents Date.fromisoformat_midnight _ _ _ H0))));
      compute_done.
Defined.

(** C2 as stated fails on a history that fills the calendar.  With
    sessions on 0001-01-01 and 0001-01-02 and the clock on 0001-01-02, the
    set of dates is not empty and the two days ending today are both in
    it, so the count of the claim is 2; the walk then asks for the day
    before 0001-01-01, [fromordinal] raises, and no streak is returned. *)
Lemma full_calendar_streak_is_not_returned :
  dates_read Sample.ancient_session Sample.year_one
  = Return ({[1; 2]} : gset Z)
  ∧ ({[1; 2]} : gset Z) ≠ ∅
  ∧ clock Sample.year_one 0%nat = 2
  ∧ (∀ i, 0 ≤ i < 2 →
          clock Sample.year_one 0%nat - i ∈ ({[1; 2]} : gset Z))
  ∧ (run Sample.ancient_session Sample.year_one).1 = Raise ValueError
  ∧ ¬ ∃ fb, (run Sample.ancient_session Sample.year_one).1 = Return fb.
Proof.
  assert (Hrun : (run Sample.ancient_session Sample.year_one).1
                 = Raise ValueError) by (vm_compute; reflexivity).
  split_and!.
  - vm_compute. reflexivity.
  - compute_done.
  - reflexivity.
  - intros i Hi. assert (i = 0 ∨ i = 1) as [->| ->] by lia; compute_done.
  - exact Hrun.
  - intros (fb & Hfb). rewrite Hrun in Hfb. discriminate Hfb.
Qed.

Lemma streak_of_empty_date_set_is_zero_witness :
  ∃ fb w', run_blind Sample.session Sample.blind = (Return fb, w')
           ∧ SessionFeedback.streak fb = 0.
Proof.
  apply (streak_of_empty_date_set_is_zero Sample.blind_create
           Sample.blind_get Date.fromisoformat_midnight
           Sample.session Sample.blind).
  left. reflexivity.
Defined.

(** C3 as stated fails: with a store that returns no document for the
    user, so that no date at all is read back, the streak returned is 0,
    not 1. *)
Lemma empty_history_streak_is_not_one :
  sorted_dates
    (history Sample.blind_create Sample.blind_get Sample.session Sample.blind)
  = []
  ∧ (run_blind Sample.session Sample.blind).1
    = Return {| SessionFeedback.xp_earned := 18;
                SessionFeedback.streak := 0;
                SessionFeedback.badges_unlocked := ["Clean Pop"; "Grinder"];
                SessionFeedback.milestone := None |}
  ∧ ¬ ∃ fb, (run_blind Sample.session Sample.blind).1 = Return fb
            ∧ SessionFeedback.streak fb = 1.
Proof.
  split; [reflexivity|]. split; [reflexivity|].
  intros (fb & Hfb & H1). vm_compute in Hfb. injection Hfb as <-.
  discriminate H1.
Qed.

Lemma badges_by_threshold_witness :
  ∃ fb w', run Sample.session Sample.fresh = (Return fb, w')
           ∧ "Clean Pop" ∈ SessionFeedback.badges_unlocked fb
           ∧ "Grinder" ∈ SessionFeedback.badges_unlocked fb.
Proof.
  assert (Hrun : run Sample.session Sample.fresh
                 = (Return (feedback_for Sample.session 1),
                    final_world mem_create Sample.session Sample.fresh 1))
    by (vm_compute; reflexivity).
  eexists _, _. split; [exact Hrun|].
  destruct badges_by_threshold as [Hany _].
  destruct (Hany _ mem_create MemStore.get_documents
              Date.fromisoformat_midnight Sample.session Sample.fresh
              _ _ Hrun) as [Hc Hg].
  split; [apply Hc|apply Hg]; compute_done.
Defined.

Lemma milestone_iff_positive_multiple_of_7_witness :
  ∃ fb w', run Sample.session Sample.six_days = (Return fb, w')
           ∧ SessionFeedback.streak fb = 7
           ∧ SessionFeedback.milestone fb = Some "7-Day Streak!"
           ∧ (SessionFeedback.milestone fb ≠ None
                ↔ ∃ n, 0 < n ∧ SessionFeedback.streak fb = 7 * n)
           ∧ (∀ m, SessionFeedback.milestone fb = Some m →
                   m = pretty (SessionFeedback.streak fb) +:+ "-Day Streak!").
Proof.
  assert (Hrun : run Sample.session Sample.six_days
                 = (Return (feedback_for Sample.session 7),
                    final_world mem_create Sample.session Sample.six_days 1))
    by (vm_compute; reflexivity).
  eexists _, _. split; [exact Hrun|].
  split; [reflexivity|]. split; [reflexivity|].
  exact (milestone_iff_positive_multiple_of_7 mem_create
           MemStore.get_documents Date.fromisoformat_midnight Sample.session
           Sample.six_days _ _ Hrun).
Defined.

Lemma xp_bounded_and_monotone_witness :
  ∃ fb w' fb' v',
    PracticeSession.valid Sample.session = true
    ∧ run Sample.session Sample.fresh = (Return fb, w')
    ∧ run Sample.longer_session Sample.fresh = (Return fb', v')
    ∧ 0 ≤ SessionFeedback.xp_earned fb ≤ 50
    ∧ SessionFeedback.xp_earned fb ≤ SessionFeedback.xp_earned fb'.
Proof.
  assert (Hrun : run Sample.session Sample.fresh
                 = (Return (feedback_for Sample.session 1),
                    final_world mem_create Sample.session Sample.fresh 1))
    by (vm_compute; reflexivity).
  assert (Hrun' : run Sample.longer_session Sample.fresh
                  = (Return (feedback_for Sample.longer_session 1),
                     final_world mem_create Sample.longer_session
                       Sample.fresh 1))
    by (vm_compute; reflexivity).
  eexists _, _, _, _. split; [reflexivity|].
  split; [exact Hrun|]. split; [exact Hrun'|].
  destruct (xp_bounded_and_monotone mem_create MemStore.get_documents
              Date.fromisoformat_midnight Sample.session
              Sample.longer_session Sample.fresh Sample.fresh _ _ _ _
              eq_refl Hrun Hrun') as (Hb & Hd & _ & _).
  split; [exact Hb|]. apply Hd; [compute_done|reflexivity|reflexivity].
Defined.

Lemma leaderboard_points_order_ranks_witness :
  ∃ rows,
    leaderboard MemStore.get_documents 20 (Sample.league Sample.board)
    = (Return rows, Sample.league Sample.board)
    ∧ length rows = 2%nat
    ∧ rows = [ {| Rank.user_id := Some "u1"; Rank.points := 82;
                  Rank.rank := 1 |};
               {| Rank.user_id := Some "u2"; Rank.points := 60;
                  Rank.rank := 2 |} ].
Proof.
  destruct (leaderboard_points_order_ranks MemStore.get_documents 20
              (Sample.league Sample.board))
    as (rows & Hrun & _ & _ & _ & _ & Hlen & _ & _ & Hrows).
  exists rows. split; [exact Hrun|]. split.
  - rewrite Hlen; [reflexivity|lia].
  - apply Hrows; reflexivity.
Defined.

Lemma one_achievement_per_badge_witness :
  ∃ fb w', run Sample.session Sample.fresh = (Return fb, w')
           ∧ MemStore.achievement (store w')
             = [ {| Achievement.user_id := "a";
                    Achievement.key := "clean-pop";
                    Achievement.title := "Clean Pop";
                    Achievement.description :=
                      "Unlocked by session on 2024-03-10";
                    Achievement.icon := "⭐";
                    Achievement.unlocked_at := None |};
                 {| Achievement.user_id := "a";
                    Achievement.key := "grinder";
                    Achievement.title := "Grinder";
                    Achievement.description :=
                      "Unlocked by session on 2024-03-10";
                    Achievement.icon := "⭐";
                    Achievement.unlocked_at := None |} ].
Proof.
  assert (Hrun : run Sample.session Sample.fresh
                 = (Return (feedback_for Sample.session 1),
                    final_world mem_create Sample.session Sample.fresh 1))
    by (vm_compute; reflexivity).
  eexists _, _. split; [exact Hrun|].
  destruct one_achievement_per_badge as [_ Hmem].
  rewrite (Hmem Sample.now Date.fromisoformat_midnight Sample.session
             Sample.fresh _ _ Hrun).
  vm_compute. reflexivity.
Defined.

Lemma feedback_determined_by_session_history_today_witness :
  (run Sample.session Sample.fresh).1 = (run Sample.session Sample.busy).1.
Proof.
  apply (feedback_determined_by_session_history_today
           (MemStore.create_document Sample.now) MemStore.get_documents
           Date.fromisoformat_midnight Sample.session
           Sample.fresh Sample.busy); reflexivity.
Defined.

Lemma badges_shape_witness :
  ∃ fb w', run Sample.session Sample.fresh = (Return fb, w')
           ∧ (length (SessionFeedback.badges_unlocked fb) ≤ 2)%nat
           ∧ NoDup (SessionFeedback.badges_unlocked fb).
Proof.
  assert (Hrun : run Sample.session Sample.fresh
                 = (Return (feedback_for Sample.session 1),
                    final_world mem_create Sample.session Sample.fresh 1))
    by (vm_compute; reflexivity).
  eexists _, _. split; [exact Hrun|].
  destruct (badges_shape mem_create MemStore.get_documents
              Date.fromisoformat_midnight Sample.session Sample.fresh _ _
              Hrun) as (Hlen & Hnd & _).
  split; [exact Hlen|exact Hnd].
Defined.

(** ** The further properties at work on sample data *)

Lemma MemStore_session_round_trip now (st : MemStore.t) s :
  ∃ d, MemStore.get_documents "practicesession" Everything
         (MemStore.create_document now "practicesession" (Session s) st)
       ≡ₚ d :: MemStore.get_documents "practicesession" Everything st
       ∧ Doc.user_id d = Some (PracticeSession.user_id s)
       ∧ Doc.technique_score d = Some (PracticeSession.technique_score s)
       ∧ Doc.attempts d = Some (PracticeSession.attempts s).
Proof.
  exists (MemStore.document_of now s). split; [|done].
  change (MemStore.practicesession st ++ [MemStore.document_of now s]
          ≡ₚ [MemStore.document_of now s] ++ MemStore.practicesession st).
  apply Permutation_app_comm.
Qed.

Lemma MemStore_unlock_keeps_sessions now (st : MemStore.t) a :
  MemStore.get_documents "practicesession" Everything
    (MemStore.create_document now "achievement" (Unlock a) st)
  = MemStore.get_documents "practicesession" Everything st.
Proof. reflexivity. Qed.

Lemma log_practice_unreadable_date_witness :
  run Sample.session Sample.spaced
  = (Raise ValueError,
     failed_world mem_create Sample.session Sample.spaced).
Proof.
  apply (log_practice_unreadable_date mem_create MemStore.get_documents
           Date.fromisoformat_midnight Sample.session Sample.spaced
           (Sample.stored "a" "2024-03-09 07:30:00"));
    [vm_compute; left|compute_done..].
Defined.

Lemma log_practice_missing_timestamps_witness :
  run Sample.session Sample.undated
  = (Raise ValueError,
     failed_world mem_create Sample.session Sample.undated).
Proof.
  apply (log_practice_missing_timestamps mem_create MemStore.get_documents
           Date.fromisoformat_midnight Sample.session Sample.undated
           Sample.undated_doc); [vm_compute; left|compute_done..].
Defined.

Lemma log_practice_raises_iff_calendar_full_witness :
  run Sample.ancient_session Sample.year_one
  = (Raise ValueError,
     failed_world mem_create Sample.ancient_session Sample.year_one)
  ∧ ∃ fb w', run Sample.session Sample.fresh = (Return fb, w').
Proof.
  split.
  - assert (HS : dates_read Sample.ancient_session Sample.year_one
                 = Return {[1; 2]}) by (vm_compute; reflexivity).
    apply (proj1 (log_practice_raises_iff_calendar_full mem_create
                    MemStore.get_documents Date.fromisoformat_midnight
                    _ _ _ HS ltac:(compute_done))).
    intros d Hd. assert (d = 1 ∨ d = 2) as [->| ->]; [|compute_done..].
    change (clock Sample.year_one 0%nat) with 2 in Hd. lia.
  - assert (HS : dates_read Sample.session Sample.fresh
                 = Return {[738955]}) by (vm_compute; reflexivity).
    apply (proj2 (log_practice_raises_iff_calendar_full mem_create
                    MemStore.get_documents Date.fromisoformat_midnight
                    _ _ _ HS ltac:(compute_done))).
    exists 1. split; compute_done.
Defined.

Lemma streak_is_run_ending_today_witness :
  ∃ fb w', run Sample.session Sample.two_days = (Return fb, w')
           ∧ SessionFeedback.streak fb = 3
           ∧ (1 ≤ SessionFeedback.streak fb ↔ 738955 ∈ ({[738955; 738954; 738953]} : gset Z))
           ∧ SessionFeedback.streak fb
             ≤ Z.of_nat (size ({[738955; 738954; 738953]} : gset Z)).
Proof.
  assert (HS : dates_read Sample.session Sample.two_days
               = Return {[738955; 738954; 738953]})
    by (vm_compute; reflexivity).
  assert (Hrun : run Sample.session Sample.two_days
                 = (Return (feedback_for Sample.session 3),
                    final_world mem_create Sample.session Sample.two_days 1))
    by (vm_compute; reflexivity).
  eexists _, _. split; [exact Hrun|]. split; [reflexivity|].
  destruct (streak_is_run_ending_today mem_create MemStore.get_documents
              Date.fromisoformat_midnight _ _ _ _ _ HS Hrun)
    as (_ & _ & _ & Hiff & Hsize).
  split; [exact Hiff|exact Hsize].
Defined.

Lemma streak_monotone_in_history_witness :
  ∃ fb w' fb' v',
    run Sample.session Sample.gap = (Return fb, w')
    ∧ run Sample.session Sample.two_days = (Return fb', v')
    ∧ SessionFeedback.streak fb ≤ SessionFeedback.streak fb'.
Proof.
  assert (HS : dates_read Sample.session Sample.gap
               = Return {[738955; 738953]}) by (vm_compute; reflexivity).
  assert (HS' : dates_read Sample.session Sample.two_days
                = Return {[738955; 738954; 738953]})
    by (vm_compute; reflexivity).
  assert (Hrun : run Sample.session Sample.gap
                 = (Return (feedback_for Sample.session 1),
                    final_world mem_create Sample.session Sample.gap 1))
    by (vm_compute; reflexivity).
  assert (Hrun' : run Sample.session Sample.two_days
                  = (Return (feedback_for Sample.session 3),
                     final_world mem_create Sample.session Sample.two_days 1))
    by (vm_compute; reflexivity).
  eexists _, _, _, _. split; [exact Hrun|]. split; [exact Hrun'|].
  apply (streak_monotone_in_history mem_create MemStore.get_documents
           Date.fromisoformat_midnight _ _ _ _ _ _ _ _ _ _
           HS HS' eq_refl ltac:(compute_done) Hrun Hrun').
Defined.

Lemma badges_come_with_xp_witness :
  ∃ fb w', run Sample.session Sample.fresh = (Return fb, w')
           ∧ 11 ≤ SessionFeedback.xp_earned fb.
Proof.
  assert (Hrun : run Sample.session Sample.fresh
                 = (Return (feedback_for Sample.session 1),
                    final_world mem_create Sample.session Sample.fresh 1))
    by (vm_compute; reflexivity).
  eexists _, _. split; [exact Hrun|].
  destruct (badges_come_with_xp mem_create MemStore.get_documents
              Date.fromisoformat_midnight Sample.session Sample.fresh _ _
              eq_refl Hrun)
    as (_ & _ & Hboth).
  apply Hboth; compute_done.
Defined.

Lemma leaderboard_smaller_limit_is_prefix_witness :
  ∃ rows rows',
    (leaderboard MemStore.get_documents 1 (Sample.league Sample.board)).1
    = Return rows
    ∧ (leaderboard MemStore.get_documents 2 (Sample.league Sample.board)).1
      = Return rows'
    ∧ rows = take 1 rows'.
Proof.
  eexists _, _. split; [reflexivity|]. split; [reflexivity|].
  apply (leaderboard_smaller_limit_is_prefix MemStore.get_documents 1 2
           (Sample.league Sample.board)); [lia|reflexivity..].
Defined.

Lemma leaderboard_complete_and_conservative_witness :
  ∃ rows,
    (leaderboard MemStore.get_documents 20 (Sample.league Sample.board)).1
    = Return rows
    ∧ length rows = 2%nat
    ∧ foldr Z.add 0 (Rank.points <$> rows) = 142.
Proof.
  eexists. split; [reflexivity|].
  destruct (leaderboard_complete_and_conservative MemStore.get_documents 20
              (Sample.league Sample.board) _ ltac:(compute_done) eq_refl)
    as (Hlen & _ & Hsum).
  split; [|exact Hsum]. etrans; [exact Hlen|]. compute_done.
Defined.

Lemma leaderboard_ties_by_first_session_witness :
  ∃ n : nat,
    Some "x" ∈ Doc.user_id <$> take n Sample.tied
    ∧ Some "y" ∉ Doc.user_id <$> take n Sample.tied.
Proof.
  apply (leaderboard_ties_by_first_session MemStore.get_documents 20
           (Sample.league Sample.tied)
           [ {| Rank.user_id := Some "x"; Rank.points := 82; Rank.rank := 1 |};
             {| Rank.user_id := Some "y"; Rank.points := 82; Rank.rank := 2 |} ]
           0%nat 1%nat
           {| Rank.user_id := Some "x"; Rank.points := 82; Rank.rank := 1 |}
           {| Rank.user_id := Some "y"; Rank.points := 82; Rank.rank := 2 |});
    [vm_compute; reflexivity|lia|reflexivity..].
Defined.

Lemma practice_log_counts_on_leaderboard_witness :
  ∃ rows row,
    (leaderboard MemStore.get_documents 20
       (run Sample.session (Sample.league Sample.board)).2).1 = Return rows
    ∧ row ∈ rows
    ∧ Rank.user_id row = Some "a"
    ∧ Rank.points row = 76.
Proof.
  exists [ {| Rank.user_id := Some "u1"; Rank.points := 82; Rank.rank := 1 |};
           {| Rank.user_id := Some "a"; Rank.points := 76; Rank.rank := 2 |};
           {| Rank.user_id := Some "u2"; Rank.points := 60; Rank.rank := 3 |} ],
         {| Rank.user_id := Some "a"; Rank.points := 76; Rank.rank := 2 |}.
  assert (Hrows :
    (leaderboard MemStore.get_documents 20
       (run Sample.session (Sample.league Sample.board)).2).1
    = Return
        [ {| Rank.user_id := Some "u1"; Rank.points := 82; Rank.rank := 1 |};
          {| Rank.user_id := Some "a"; Rank.points := 76; Rank.rank := 2 |};
          {| Rank.user_id := Some "u2"; Rank.points := 60; Rank.rank := 3 |} ])
    by (vm_compute; reflexivity).
  split; [exact Hrows|].
  split; [apply list_elem_of_further, list_elem_of_here|].
  split; [reflexivity|].
  etrans.
  - apply (practice_log_counts_on_leaderboard mem_create
             MemStore.get_documents Date.fromisoformat_midnight
             Sample.session (Sample.league Sample.board) 20 _ _
             (MemStore_session_round_trip Sample.now)
             (MemStore_unlock_keeps_sessions Sample.now) Hrows).
    apply list_elem_of_further, list_elem_of_here.
  - vm_compute. reflexivity.
Defined.

Lemma list_attempts_exposes_id_witness :
  ∃ rows,
    list_attempts id Sample.get_attempts 20 Sample.attempt_store
    = (Return rows, Sample.attempt_store)
    ∧ length rows = 2%nat
    ∧ ∃ d', rows !! 0%nat = Some d'
            ∧ d' !! "_id" = None
            ∧ d' !! "id" = Some (Text "65f0c1a2")
            ∧ d' !! "user_id" = Some (Text "a").
Proof.
  destruct (list_attempts_exposes_id id Sample.get_attempts 20
              Sample.attempt_store) as (rows & Hrun & Hlen & Hrows).
  exists rows. split; [exact Hrun|]. split; [exact Hlen|].
  destruct (Hrows 0%nat _ eq_refl) as (d' & Hd' & H_id & Hid & Hother).
  exists d'. split; [exact Hd'|]. split; [exact H_id|].
  split; [exact Hid|]. by rewrite Hother.
Defined.

Lemma list_attempts_without_id_witness :
  ∃ rows d',
    (list_attempts id Sample.get_attempts 20 Sample.attempt_store).1
    = Return rows
    ∧ rows !! 1%nat = Some d'
    ∧ d' = <["id" := Text "None"]>
             (list_to_map [("id", Object "mine"); ("user_id", Text "b")]).
Proof.
  eexists _, _. split; [reflexivity|]. split; [reflexivity|].
  apply (list_attempts_without_id id Sample.get_attempts 20
           Sample.attempt_store _ 1%nat _ _ eq_refl eq_refl);
    reflexivity.
Defined.

Lemma test_database_status_witness :
  length (Health.collections (test_database (Some Sample.handle) Sample.env))
  = 10%nat
  ∧ Health.database (test_database (Some Sample.broken_handle) Sample.env)
    ≠ "✅ Connected & Working".
Proof.
  split.
  - destruct (test_database_status (Some Sample.handle) Sample.env)
      as (_ & _ & Hnames & _).
    by rewrite (Hnames _ _ eq_refl eq_refl).
  - destruct (test_database_status (Some Sample.broken_handle) Sample.env)
      as (_ & _ & _ & _ & _ & Hworking).
    intros (h & names & [= <-] & Hlist)%Hworking. discriminate Hlist.
Defined.

Lemma test_database_env_fields_witness :
  Health.database_url (test_database (Some Sample.handle) Sample.env)
  = Some "✅ Set"
  ∧ Health.database_name (test_database (Some Sample.handle) Sample.env)
    ≠ Some "✅ Set".
Proof.
  destruct (test_database_env_fields (Some Sample.handle) None Sample.env)
    as (_ & _ & Hurl & Hname & _).
  split.
  - apply Hurl. by eexists.
  - intros (v & [= <-] & Hv)%Hname. done.
Defined.

(** ** Worked examples *)

Example ord2ymd_epoch : Date.ord2ymd 719163 = (1970, 1, 1).
Proof. reflexivity. Qed.

Example ord2ymd_leap_day :
  Date.ord2ymd (Date.ymd2ord 2024 2 29) = (2024, 2, 29).
Proof. reflexivity. Qed.

Example ord2ymd_last_day : Date.ord2ymd 3652059 = (9999, 12, 31).
Proof. reflexivity. Qed.

Example isoformat_first_day : Date.isoformat 1 = "0001-01-01".
Proof. reflexivity. Qed.

Example fromisoformat_midnight_2024 :
  Date.fromisoformat_midnight "2024-03-10T00:00:00+00:00" = Some 738955.
Proof. reflexivity. Qed.

Example fromisoformat_midnight_space :
  Date.fromisoformat_midnight "2024-03-10 08:30:00T00:00:00+00:00" = None.
Proof. reflexivity. Qed.

(** The worked example of the specification: a first session, performed
    today. *)
Example first_session_feedback :
  (run Sample.session Sample.fresh).1
  = Return {| SessionFeedback.xp_earned := 18;
              SessionFeedback.streak := 1;
              SessionFeedback.badges_unlocked := ["Clean Pop"; "Grinder"];
              SessionFeedback.milestone := None |}.
Proof. vm_compute. reflexivity. Qed.

(** The same session logged twice leaves each unlock twice. *)
Example repeated_session_repeats_unlocks :
  Achievement.key
    <$> MemStore.achievement
          (store (run Sample.session (run Sample.session Sample.fresh).2).2)
  = ["clean-pop"; "grinder"; "clean-pop"; "grinder"].
Proof. vm_compute. reflexivity. Qed.

(** A session too short and too sloppy for a badge writes no
    achievement. *)
Example short_session_no_unlock :
  (run Sample.short_session Sample.fresh).1
  = Return {| SessionFeedback.xp_earned := 5;
              SessionFeedback.streak := 1;
              SessionFeedback.badges_unlocked := [];
              SessionFeedback.milestone := None |}
  ∧ MemStore.achievement (store (run Sample.short_session Sample.fresh).2)
    = [].
Proof. split; vm_compute; reflexivity. Qed.

(** With a session on every day since 0001-01-01 the walk steps off the
    calendar and [fromordinal] raises. *)
Example streak_walk_off_calendar_raises :
  (run Sample.ancient_session Sample.year_one).1 = Raise ValueError.
Proof. vm_compute. reflexivity. Qed.

(** Users with equal points stay in the order of their first session. *)
Example leaderboard_tie_keeps_order :
  leaderboard_of 20
    [Sample.stored "x" "2024-03-09T07:30:00+00:00";
     Sample.stored "y" "2024-03-09T08:30:00+00:00";
     Sample.stored "x" "2024-03-10T07:30:00+00:00";
     Sample.stored "y" "2024-03-10T08:30:00+00:00"]
  = [ {| Rank.user_id := Some "x"; Rank.points := 82; Rank.rank := 1 |};
      {| Rank.user_id := Some "y"; Rank.points := 82; Rank.rank := 2 |} ].
Proof. vm_compute. reflexivity. Qed.

(** A negative [limit] drops rows from the end, like any Python slice. *)
Example leaderboard_negative_limit :
  leaderboard_of (-1) Sample.board
  = [ {| Rank.user_id := Some "u1"; Rank.points := 82; Rank.rank := 1 |} ].
Proof. vm_compute. reflexivity. Qed.
